(** * create-index-app: a shallow embedding of [createIndexApp.js]

    The program is a command-line scaffolder: it validates its arguments,
    verifies that the requested template carries the sentinel keyword,
    materialises the template in the target directory, cleans the copied
    manifest and runs the selected package manager.

    The embedding follows the source function by function.  Everything the
    program obtains from its host (file system, subprocesses, the [path]
    module, the Node.js version) is a field of the record [Host]; every
    effect the program performs is an [event] of the run's trace. *)

From Stdlib Require Import String Ascii List Bool Arith NArith ZArith Lia.
From Stdlib Require Import Floats DecimalString Permutation.
Import ListNotations.
Local Open Scope list_scope.
Local Open Scope string_scope.
Set Warnings "-register-all".

(** ** JavaScript values reaching the program *)

Module JS.

(** Values produced by [JSON.parse] (a [require] of a [.json] file, the
    parsed output of [npm info --json]) and by the argument parser.
    [undefined] is not a JSON value: a binding that may be [undefined] has
    type [option json].  The members of [JObj] are listed in the order of
    the object's own property keys. *)
Inductive json : Type :=
| JNull
| JBool (b : bool)
| JNum (n : float)
| JStr (s : string)
| JArr (items : list json)
| JObj (members : list (string * json)).

Definition props (A : Type) : Type := list (string * A).

(** [ToBoolean]. *)
Definition truthy (v : option json) : bool :=
  match v with
  | None => false
  | Some JNull => false
  | Some (JBool b) => b
  | Some (JNum n) => negb (PrimFloat.eqb n 0%float || PrimFloat.is_nan n)
  | Some (JStr s) => negb (String.eqb s EmptyString)
  | Some (JArr _) => true
  | Some (JObj _) => true
  end.

(** *** Property keys

    An own property key that is an array index (the canonical decimal form
    of an integer below 2^32 - 1) is enumerated before every other string
    key, in ascending numeric order; the other keys follow in creation
    order. *)

Definition is_digit (c : ascii) : bool :=
  (48 <=? nat_of_ascii c)%nat && (nat_of_ascii c <=? 57)%nat.

Fixpoint digits_value (acc : N) (s : string) : option N :=
  match s with
  | EmptyString => Some acc
  | String c rest =>
      if is_digit c
      then digits_value (acc * 10 + (N_of_ascii c - 48))%N rest
      else None
  end.

Definition array_index (k : string) : option N :=
  match k with
  | EmptyString => None
  | String c rest =>
      if Ascii.eqb c "0"%char
      then match rest with EmptyString => Some 0%N | _ => None end
      else match digits_value 0%N k with
           | Some n => if (n <? 4294967295)%N then Some n else None
           | None => None
           end
  end.

(** [comes_before k k']: a key [k] that is not yet present must be placed
    in front of the existing key [k']. *)
Definition comes_before (k k' : string) : bool :=
  match array_index k, array_index k' with
  | Some i, Some i' => (i <? i')%N
  | Some _, None => true
  | None, _ => false
  end.

(** [o[k]], for an own data property. *)
Fixpoint obj_get {A : Type} (o : props A) (k : string) : option A :=
  match o with
  | [] => None
  | (k', v) :: rest => if String.eqb k k' then Some v else obj_get rest k
  end.

(** [CreateDataProperty(o, k, v)]: an existing key keeps its place. *)
Fixpoint obj_define {A : Type} (o : props A) (k : string) (v : A) : props A :=
  match o with
  | [] => [(k, v)]
  | (k', v') :: rest =>
      if String.eqb k k' then (k, v) :: rest
      else if comes_before k k' then (k, v) :: (k', v') :: rest
      else (k', v') :: obj_define rest k v
  end.

(** [CopyDataProperties(target, source)], the meaning of [...source] in an
    object literal and of a rest pattern's fresh object. *)
Definition obj_assign {A : Type} (target source : props A) : props A :=
  fold_left (fun t kv => obj_define t (fst kv) (snd kv)) source target.

Definition mem_string (k : string) (ks : list string) : bool :=
  existsb (String.eqb k) ks.

(** The own enumerable properties left over by a rest pattern that names
    the keys [ks]. *)
Definition obj_without {A : Type} (ks : list string) (o : props A) : props A :=
  filter (fun kv => negb (mem_string (fst kv) ks)) o.

(** Index keys ["0"], ["1"], ... of an array or of a string's characters. *)
Definition index_key (i : nat) : string :=
  NilZero.string_of_uint (Nat.to_uint i).

Fixpoint indexed_from {A : Type} (i : nat) (l : list A) : props A :=
  match l with
  | [] => []
  | x :: rest => (index_key i, x) :: indexed_from (S i) rest
  end.

Fixpoint chars (s : string) : list json :=
  match s with
  | EmptyString => []
  | String c rest => JStr (String c EmptyString) :: chars rest
  end.

(** Own enumerable string-keyed properties of [ToObject(v)]. *)
Definition own_enumerable (v : json) : props json :=
  match v with
  | JObj o => o
  | JArr l => indexed_from 0 l
  | JStr s => indexed_from 0 (chars s)
  | JNull | JBool _ | JNum _ => []
  end.

(** [v.k] for the property names this program reads ([scripts],
    [keywords], [prepare], ...): none of them is inherited from
    [Object.prototype], [Array.prototype] or a primitive's wrapper, so
    only an object's own member can supply it.  [v] is not [null]. *)
Definition js_get (v : json) (k : string) : option json :=
  match v with
  | JObj o => obj_get o k
  | _ => None
  end.

(** [JSON.stringify] of an object literal whose members may be
    [undefined]: such members are left out, the others keep their order.
    The result is the document the written text denotes. *)
Fixpoint stringify_members (o : props (option json)) : props json :=
  match o with
  | [] => []
  | (k, Some v) :: rest => (k, v) :: stringify_members rest
  | (_, None) :: rest => stringify_members rest
  end.

(** [s.startsWith(p)]. *)
Definition startsWith (s p : string) : bool := String.prefix p s.

(** [s.includes(p)] on strings. *)
Fixpoint string_includes (s p : string) : bool :=
  String.prefix p s ||
  match s with
  | EmptyString => false
  | String _ rest => string_includes rest p
  end.

(** [a.includes(x)] on arrays, for a string [x] (SameValueZero). *)
Definition array_includes (a : list json) (x : string) : bool :=
  existsb (fun v => match v with JStr s => String.eqb s x | _ => false end) a.

End JS.
Import JS.

(** ** Effects, failures and the host *)

Inductive error : Type :=
| TypeError                          (* destructuring or calling a non-value *)
| SyntaxError                        (* [JSON.parse] *)
| SystemError (code : string)        (* a failed file-system call *)
| ExecaError (all : option string)   (* a failed subprocess, with [err.all] *)
| PlainError (message : string).     (* [new Error(message)] *)

Record exec_options : Type := {
  opt_cwd : option string;
  opt_all : bool;
  opt_stdio_inherit : bool }.

Definition no_options : exec_options :=
  {| opt_cwd := None; opt_all := false; opt_stdio_inherit := false |}.

(** What is handed to [writeFile]: a literal text, or
    [JSON.stringify(doc, null, 2)]. *)
Inductive content : Type :=
| Text (s : string)
| JsonIndent2 (doc : json).

(** The calls the program makes to its environment, in program order. *)
Inductive event : Type :=
| ConsoleLog (line : string)
| ConsoleError (line : string)
| CommandSync (command : string)
| ExistsSync (p : string)
| RequireJson (file : string)
| Execa (file : string) (args : list string) (options : exec_options)
| MkdirSync (dir : string)
| WriteFile (file : string) (data : content)
| CopyDir (src dest : string)
| RemoveSync (p : string).

(** Calls that may change the disk: the [fs] writes and every spawned
    package-manager process except the registry query [npm info].  Console
    output, the [--version] probe, the existence test and reading a
    manifest do not. *)
Definition fs_mutating (e : event) : bool :=
  match e with
  | MkdirSync _ | WriteFile _ _ | CopyDir _ _ | RemoveSync _ => true
  | Execa _ ("info" :: _) _ => false
  | Execa _ _ _ => true
  | ConsoleLog _ | ConsoleError _ | CommandSync _
  | ExistsSync _ | RequireJson _ => false
  end.

(** The calls argument validation can make: messages, the [--version]
    probe and the existence test. *)
Definition validation_event (e : event) : bool :=
  match e with
  | ConsoleError _ | CommandSync _ | ExistsSync _ => true
  | _ => false
  end.

(** The environment of one run.  [process.cwd()] throws [cwd_error] when
    that is set (the working directory is gone) and returns [cwd]
    otherwise.  [require_json] is a function of the file name alone, as
    Node's module cache makes [require] within one process. *)
Record Host : Type := {
  cwd : string;
  cwd_error : option error;
  path_resolve : string -> string -> string;
  path_join : list string -> string;
  node_version : string;
  command_ok : string -> bool;
  fs_exists : string -> bool;
  require_json : string -> error + json;
  npm_info : string -> error + string;
  JSON_parse : string -> option json;
  fails : event -> option error }.

(** A computation: the events performed so far and how it ended. *)
Inductive completion (A : Type) : Type :=
| Normal (a : A)
| ExitProcess (code : Z)
| Throw (e : error).
Arguments Normal {A} a.
Arguments ExitProcess {A} code.
Arguments Throw {A} e.

Definition io (A : Type) : Type := (list event * completion A)%type.

Definition ret {A : Type} (a : A) : io A := ([], Normal a).

Definition bind {A B : Type} (m : io A) (k : A -> io B) : io B :=
  match m with
  | (t, Normal a) => let (t', r) := k a in ((t ++ t')%list, r)
  | (t, ExitProcess c) => (t, ExitProcess c)
  | (t, Throw e) => (t, Throw e)
  end.

Notation "x <- m ;; k" := (bind m (fun x => k))
  (at level 61, m at next level, right associativity).
Notation "m ;; k" := (bind m (fun _ => k))
  (at level 61, right associativity).

Definition emit (e : event) : io unit := ([e], Normal tt).
Definition exit {A : Type} (code : Z) : io A := ([], ExitProcess code).
Definition throw {A : Type} (e : error) : io A := ([], Throw e).
Definition when (b : bool) (m : io unit) : io unit := if b then m else ret tt.

Definition try_catch {A : Type} (m : io A) (handler : error -> io A) : io A :=
  match m with
  | (t, Throw e) => let (t', r) := handler e in ((t ++ t')%list, r)
  | _ => m
  end.

(** A call whose failure is decided by the host. *)
Definition perform (h : Host) (e : event) : io unit :=
  ([e], match fails h e with Some err => Throw err | None => Normal tt end).

Definition require (h : Host) (file : string) : io json :=
  emit (RequireJson file) ;;
  match require_json h file with
  | inl err => throw err
  | inr m => ret m
  end.

Definition trace {A : Type} (m : io A) : list event := fst m.
Definition result {A : Type} (m : io A) : completion A := snd m.

(** ** The program *)

Definition nl : string := String "010"%char EmptyString.
Definition dquote : string := String "034"%char EmptyString.

(** [kleur] only decorates text; the embedding keeps the undecorated
    text. *)
Definition errorLink : string :=
  "https://github.com/indexorg/create-index-app/issues".

Definition logError {A : Type} (msg : string) : io A :=
  emit (ConsoleError msg) ;; exit 1%Z.

Definition printStep (line : string) (subline : option string) : io unit :=
  emit (ConsoleLog (line ++ match subline with
                            | Some s => "  " ++ s
                            | None => EmptyString
                            end)).

Definition hasPmInstalled (h : Host) (packageManager : string) : io bool :=
  let command := packageManager ++ " --version" in
  emit (CommandSync command) ;;
  ret (command_ok h command).

(** *** cleanProject *)

Definition well_known_scripts : list string :=
  ["prepare"; "start"; "build"; "test"].

(** [const { prepare, start, build, test, ...otherScripts } = scripts],
    followed by the literal
    [{ prepare, start, build, test, ...otherScripts }]. *)
Definition reorder_scripts (scripts : option json)
  : error + props (option json) :=
  match scripts with
  | None | Some JNull => inl TypeError
  | Some s =>
      let prepare := js_get s "prepare" in
      let start := js_get s "start" in
      let build := js_get s "build" in
      let test := js_get s "test" in
      let otherScripts :=
        obj_assign [] (obj_without well_known_scripts (own_enumerable s)) in
      inr (obj_assign
             [("prepare", prepare); ("start", start);
              ("build", build); ("test", test)]
             (map (fun kv => (fst kv, Some (snd kv))) otherScripts))
  end.

(** The document [cleanProject] writes for the manifest [m] it read. *)
Definition cleaned_manifest (m : json) : error + json :=
  match m with
  | JNull => inl TypeError
  | _ =>
      let scripts := js_get m "scripts" in
      let webDependencies := js_get m "webDependencies" in
      let dependencies := js_get m "dependencies" in
      let devDependencies := js_get m "devDependencies" in
      match reorder_scripts scripts with
      | inl err => inl err
      | inr ordered =>
          inr (JObj (stringify_members
                       [("scripts", Some (JObj (stringify_members ordered)));
                        ("webDependencies", webDependencies);
                        ("dependencies", dependencies);
                        ("devDependencies", devDependencies)]))
      end
  end.

Definition cleanProject (h : Host) (dir : string) : io unit :=
  let packageManifest := path_join h [dir; "package.json"] in
  perform h (RemoveSync (path_join h [dir; "package-lock.json"])) ;;
  perform h (RemoveSync (path_join h [dir; "node_modules"])) ;;
  perform h (RemoveSync (path_join h [dir; ".gitignore"])) ;;
  perform h (RemoveSync (path_join h [dir; ".npmignore"])) ;;
  perform h (RemoveSync (path_join h [dir; "LICENSE"])) ;;
  m <- require h packageManifest ;;
  match cleaned_manifest m with
  | inl err => throw err
  | inr doc => perform h (WriteFile packageManifest (JsonIndent2 doc))
  end.

(** *** verifyProjectTemplate *)

Definition sentinel : string := "create-index-app--template".

(** [keywords.includes(sentinel)] for a truthy [keywords]: the array
    method, the string method, or a [TypeError] when the value has no
    callable [includes]. *)
Definition js_includes (keywords : json) (x : string) : error + bool :=
  match keywords with
  | JArr items => inr (array_includes items x)
  | JStr s => inr (string_includes s x)
  | JNull | JBool _ | JNum _ | JObj _ => inl TypeError
  end.

Definition cannot_verify_message : string :=
  "Cannot verify external template safely. If you believe this is incorrect, create an issue here:"
  ++ nl ++ errorLink.

Definition not_a_template_message : string :=
  "The provided template is not an Index app template. Check the template name or create an issue here:"
  ++ nl ++ errorLink.

(** The first half of the verifier: the value bound to [keywords]. *)
Definition read_keywords (h : Host) (isLocalTemplate : bool)
    (template dir : string) : io (option json) :=
  if isLocalTemplate then
    let packageManifest := path_join h [dir; "package.json"] in
    m <- require h packageManifest ;;
    match m with
    | JNull => throw TypeError
    | _ => ret (js_get m "keywords")
    end
  else
    try_catch
      (emit (Execa "npm" ["info"; template; "keywords"; "--json"] no_options) ;;
       match npm_info h template with
       | inl err => throw err
       | inr stdout =>
           match JSON_parse h stdout with
           | Some v => ret (Some v)
           | None => throw SyntaxError
           end
       end)
      (fun _ =>
         emit (ConsoleLog EmptyString) ;;
         emit (ConsoleError cannot_verify_message) ;;
         exit 1%Z).

Definition reject_template : io unit :=
  emit (ConsoleLog EmptyString) ;;
  emit (ConsoleError not_a_template_message) ;;
  exit 1%Z.

Definition verifyProjectTemplate (h : Host) (isLocalTemplate : bool)
    (template dir : string) : io unit :=
  keywords <- read_keywords h isLocalTemplate template dir ;;
  if negb (truthy keywords) then reject_template
  else match keywords with
       | None => reject_template
       | Some k =>
           match js_includes k sentinel with
           | inl err => throw err
           | inr true => ret tt
           | inr false => reject_template
           end
       end.

(** *** validateArgs *)

(** The object the argument parser returns for [process.argv]; [positional]
    is its [_] member. *)
Module Argv.
Record t : Type := {
  template : option json;
  useYarn : option json;
  usePnpm : option json;
  force : option json;
  target : option json;
  verbose : option json;
  positional : list json }.
End Argv.

(** The object [validateArgs] returns; [template] has passed the
    [typeof template !== 'string'] test. *)
Module Validated.
Record t : Type := {
  template : string;
  useYarn : option json;
  usePnpm : option json;
  targetDirectoryRelative : option json;
  targetDirectory : string;
  verbose : option json }.
End Validated.

(** [target || _[2]]. *)
Definition targetDirectoryRelative (a : Argv.t) : option json :=
  if truthy (Argv.target a) then Argv.target a
  else nth_error (Argv.positional a) 2.

(** [path.resolve(process.cwd(), p)]: the working directory is read
    first, then [path.resolve] accepts strings only. *)
Definition resolve_in_cwd (h : Host) (p : option json) : error + string :=
  match cwd_error h with
  | Some err => inl err
  | None =>
      match p with
      | Some (JStr s) => inr (path_resolve h (cwd h) s)
      | _ => inl TypeError
      end
  end.

Definition already_exists_message (targetDirectory : string) : string :=
  targetDirectory ++ " already exists. Use `--force` to overwrite this directory.".

Definition validateArgs (h : Host) (a : Argv.t) : io Validated.t :=
  when (truthy (Argv.useYarn a) && truthy (Argv.usePnpm a))
       (logError "You cannot use yarn and pnpm at the same time.") ;;
  when (truthy (Argv.useYarn a))
       (installed <- hasPmInstalled h "yarn" ;;
        when (negb installed) (logError "yarn doesn't seem to be installed.")) ;;
  when (truthy (Argv.usePnpm a))
       (installed <- hasPmInstalled h "pnpm" ;;
        when (negb installed) (logError "pnpm doesn't seem to be installed.")) ;;
  when (negb (truthy (Argv.target a))
        && (length (Argv.positional a) =? 2)%nat)
       (logError "Missing --target directory.") ;;
  match Argv.template a with
  | Some (JStr template) =>
      when (3 <? length (Argv.positional a))%nat
           (logError "Unexpected extra arguments.") ;;
      let relative := targetDirectoryRelative a in
      match resolve_in_cwd h relative with
      | inl err => throw err
      | inr targetDirectory =>
          emit (ExistsSync targetDirectory) ;;
          when (fs_exists h targetDirectory && negb (truthy (Argv.force a)))
               (logError (already_exists_message targetDirectory)) ;;
          ret {| Validated.template := template;
                 Validated.useYarn := Argv.useYarn a;
                 Validated.usePnpm := Argv.usePnpm a;
                 Validated.targetDirectoryRelative := relative;
                 Validated.targetDirectory := targetDirectory;
                 Validated.verbose := Argv.verbose a |}
      end
  | _ => logError "Missing --template argument."
  end.

(** *** The module body and the asynchronous main function *)

(** [version.split('.')[0]]. *)
Fixpoint first_segment (version : string) : string :=
  match version with
  | EmptyString => EmptyString
  | String c rest =>
      if Ascii.eqb c "."%char then EmptyString
      else String c (first_segment rest)
  end.

Definition is_space (c : ascii) : bool :=
  let n := nat_of_ascii c in
  ((9 <=? n)%nat && (n <=? 13)%nat) || (n =? 32)%nat.

Fixpoint skip_spaces (s : string) : string :=
  match s with
  | String c rest => if is_space c then skip_spaces rest else s
  | EmptyString => EmptyString
  end.

Fixpoint leading_digits (acc : option N) (s : string) : option N :=
  match s with
  | String c rest =>
      if is_digit c then
        leading_digits
          (Some (10 * match acc with Some n => n | None => 0 end
                 + (N_of_ascii c - 48))%N) rest
      else acc
  | EmptyString => acc
  end.

(** [parseInt(s, 10)]; [None] is [NaN]. *)
Definition parseInt10 (s : string) : option Z :=
  match skip_spaces s with
  | String c rest =>
      if Ascii.eqb c "-"%char
      then option_map (fun n => Z.opp (Z.of_N n)) (leading_digits None rest)
      else if Ascii.eqb c "+"%char
      then option_map Z.of_N (leading_digits None rest)
      else option_map Z.of_N (leading_digits None (String c rest))
  | EmptyString => None
  end.

Definition minimumMajorVersion : Z := 10.

(** [requiredMajorVersion < minimumMajorVersion]; a comparison with [NaN]
    is false. *)
Definition node_out_of_date (h : Host) : bool :=
  match parseInt10 (first_segment (node_version h)) with
  | Some major => (major <? minimumMajorVersion)%Z
  | None => false
  end.

Definition intro : string :=
  String.concat nl
    [EmptyString;
     "            |";
     "          |||||";
     "        |||||||||         ";
     "       |||||||||||         ";
     "      |||||||||||||        Thank you for using Leaf! Please";
     "      |||||||||||||        visit https://indexforwp.com/leaf";
     "       |||||||||||";
     "        |||||||||";
     "          |||||";
     EmptyString].

Definition placeholder_manifest : string :=
  "{" ++ dquote ++ "name" ++ dquote ++ ": "
      ++ dquote ++ "my-ndx-app" ++ dquote ++ "}".

(** [verbose ? a : b]. *)
Definition pick (verbose : option json) (a b : string) : string :=
  if truthy verbose then a else b.

(** The [execa] call that fetches a registry template. *)
Definition template_install_call (template targetDirectory : string)
    (verbose : option json) : event :=
  Execa "npm"
        ["install"; template; "--ignore-scripts"; "--loglevel";
         pick verbose "verbose" "error"]
        {| opt_cwd := Some targetDirectory; opt_all := true;
           opt_stdio_inherit := false |}.

(** [console.error(err.all)]. *)
Definition err_all (e : error) : string :=
  match e with
  | ExecaError (Some out) => out
  | _ => "undefined"
  end.

Definition npmInstallOptions (targetDirectory : string) : exec_options :=
  {| opt_cwd := Some targetDirectory; opt_all := false;
     opt_stdio_inherit := true |}.

(** [installProcess(packageManager)]: the subprocess it spawns, or the
    error of the [default] case. *)
Definition installProcess (verbose : option json) (options : exec_options)
    (packageManager : string) : error + event :=
  if String.eqb packageManager "npm" then
    inr (Execa "npm" ["install"; "--loglevel"; pick verbose "verbose" "error"]
               options)
  else if String.eqb packageManager "yarn" then
    inr (Execa "yarn" [pick verbose "--verbose" "--silent"] options)
  else if String.eqb packageManager "pnpm" then
    inr (Execa "pnpm"
               ["install"; "--reporter=" ++ pick verbose "default" "silent"]
               options)
  else inl (PlainError "Unspecified package installer").

(** [let installer = 'npm'; if (useYarn) ... else if (usePnpm) ...]. *)
Definition installer (v : Validated.t) : string :=
  if truthy (Validated.useYarn v) then "yarn"
  else if truthy (Validated.usePnpm v) then "pnpm"
  else "npm".

Definition isLocalTemplate (template : string) : bool :=
  startsWith template ".".

(** [process.cwd()] has returned once before, in [validateArgs]. *)
Definition installedTemplate (h : Host) (template targetDirectory : string)
  : string :=
  if isLocalTemplate template
  then path_resolve h (cwd h) template
  else path_join h [targetDirectory; "node_modules"; template].

Definition setup_message (targetDirectory : string) : string :=
  "Leaf is setup! Go to " ++ dquote ++ targetDirectory
  ++ " to see your project".

(** The main function after verification, up to the cleaned manifest:
    the target directory, the placeholder manifest, the fetch of a
    registry template, the copy and [cleanProject]. *)
Definition initialize (h : Host) (v : Validated.t) : io unit :=
  let template := Validated.template v in
  let targetDirectory := Validated.targetDirectory v in
  let verbose := Validated.verbose v in
  let isLocal := isLocalTemplate template in
  let installed := installedTemplate h template targetDirectory in
  emit (ConsoleLog (nl ++ "Template: " ++ template)) ;;
  emit (ConsoleLog ("Target directory: " ++ targetDirectory)) ;;
  perform h (MkdirSync targetDirectory) ;;
  perform h (WriteFile (path_join h [targetDirectory; "package.json"])
                       (Text placeholder_manifest)) ;;
  when (negb isLocal)
       (try_catch
          (perform h (template_install_call template targetDirectory verbose))
          (fun err => emit (ConsoleError (err_all err)) ;; throw err)) ;;
  perform h (CopyDir installed targetDirectory) ;;
  cleanProject h targetDirectory.

(** The rest of the main function: the dependency install.  The child's
    streams are inherited, so the two [pipe] lines find [stdout] and
    [stderr] null and do nothing; awaiting the child is [perform]. *)
Definition install_packages (h : Host) (v : Validated.t) : io unit :=
  let targetDirectory := Validated.targetDirectory v in
  let verbose := Validated.verbose v in
  emit (ConsoleLog nl) ;;
  printStep "Setting up packages..." (Some "this might take a minute") ;;
  match installProcess verbose (npmInstallOptions targetDirectory)
                       (installer v) with
  | inl err => throw err
  | inr npmInstallProcess => perform h npmInstallProcess
  end ;;
  emit (ConsoleLog nl) ;;
  printStep (setup_message targetDirectory) None.

Definition out_of_date_report (h : Host) : io unit :=
  emit (ConsoleError ("Node.js v" ++ node_version h
                      ++ " is out of date and unsupported!")) ;;
  emit (ConsoleError "Please use Node.js v10 or higher.") ;;
  exit 1%Z.

(** What the main function prints before it verifies the template. *)
Definition banner : list event :=
  [ConsoleLog (nl ++ " " ++ intro); ConsoleLog "Verifying template..."].

(** The body of the [async] arrow function. *)
Definition async_main (h : Host) (v : Validated.t) : io unit :=
  let template := Validated.template v in
  let targetDirectory := Validated.targetDirectory v in
  when (node_out_of_date h) (out_of_date_report h) ;;
  emit (ConsoleLog (nl ++ " " ++ intro)) ;;
  printStep "Verifying template..." None ;;
  verifyProjectTemplate h (isLocalTemplate template) template
    (installedTemplate h template targetDirectory) ;;
  initialize h v ;;
  install_packages h v.

(** How the process ends. *)
Inductive outcome : Type :=
| Completed                         (* the main function's promise resolved *)
| Exited (code : Z)                 (* [process.exit(code)] *)
| Uncaught (e : error)              (* thrown by the module body *)
| UnhandledRejection (e : error).   (* the main function's promise rejected *)

(** How the main function's promise, which nobody handles, ends the
    process. *)
Definition promise_outcome (r : completion unit) : outcome :=
  match r with
  | Normal _ => Completed
  | ExitProcess c => Exited c
  | Throw e => UnhandledRejection e
  end.

(** The whole module: [validateArgs(process.argv)], then the main
    function. *)
Definition main (h : Host) (a : Argv.t) : list event * outcome :=
  match validateArgs h a with
  | (t, ExitProcess c) => (t, Exited c)
  | (t, Throw e) => (t, Uncaught e)
  | (t, Normal v) =>
      let (t', r) := async_main h v in ((t ++ t')%list, promise_outcome r)
  end.

(** The status the operating system sees.  An uncaught exception ends the
    process with status 1.  A rejected promise without a handler ends it
    with status 1 from Node.js 15 on; Node.js 10 to 14 only print a warning
    and the process ends normally. *)
Definition rejections_are_fatal (h : Host) : bool :=
  match parseInt10 (first_segment (node_version h)) with
  | Some major => (15 <=? major)%Z
  | None => true
  end.

Definition exit_status (h : Host) (o : outcome) : Z :=
  match o with
  | Completed => 0
  | Exited code => code
  | Uncaught _ => 1
  | UnhandledRejection _ => if rejections_are_fatal h then 1 else 0
  end.

(** ** The specification's vocabulary *)

(** The cleaned scripts as the specification words them: the well-known
    names that are present, in the fixed order, then the other scripts in
    their original relative order. *)
Fixpoint present {A : Type} (names : list string) (o : props A) : props A :=
  match names with
  | [] => []
  | name :: rest =>
      match obj_get o name with
      | Some v => (name, v) :: present rest o
      | None => present rest o
      end
  end.

Definition spec_scripts (scripts : props json) : props json :=
  (present well_known_scripts scripts
   ++ obj_without well_known_scripts scripts)%list.

Definition retained_fields : list string :=
  ["scripts"; "webDependencies"; "dependencies"; "devDependencies"].

(** The cleaned manifest as the specification words it: exactly the four
    retained fields, every other field dropped, the scripts reordered. *)
Definition spec_cleaned (m : json) : json :=
  match m with
  | JObj members =>
      JObj (map (fun kv =>
                   if String.eqb (fst kv) "scripts" then
                     match snd kv with
                     | JObj scripts => (fst kv, JObj (spec_scripts scripts))
                     | _ => kv
                     end
                   else kv)
                (present retained_fields members))
  | _ => JObj []
  end.

(** The package managers of the specification's command table. *)
Inductive manager : Type := Npm | Yarn | Pnpm.

Definition manager_name (pm : manager) : string :=
  match pm with Npm => "npm" | Yarn => "yarn" | Pnpm => "pnpm" end.

(** The table's rows: the program and its arguments. *)
Definition spec_command (pm : manager) (verbose : bool) : string * list string :=
  match pm with
  | Npm => ("npm", ["install"; "--loglevel"; if verbose then "verbose" else "error"])
  | Yarn => ("yarn", [if verbose then "--verbose" else "--silent"])
  | Pnpm => ("pnpm", ["install";
                      if verbose then "--reporter=default" else "--reporter=silent"])
  end.

(** The package manager a validated request selects. *)
Definition chosen_manager (v : Validated.t) : manager :=
  if truthy (Validated.useYarn v) then Yarn
  else if truthy (Validated.usePnpm v) then Pnpm
  else Npm.

(** The final install as the table gives it, run in the target directory
    with inherited standard streams. *)
Definition spec_install_call (v : Validated.t) : event :=
  let command :=
    spec_command (chosen_manager v) (truthy (Validated.verbose v)) in
  Execa (fst command) (snd command)
        (npmInstallOptions (Validated.targetDirectory v)).

(** The value the verifier binds to [keywords] in a validated run. *)
Definition template_keywords (h : Host) (v : Validated.t) : io (option json) :=
  read_keywords h (isLocalTemplate (Validated.template v))
    (Validated.template v)
    (installedTemplate h (Validated.template v) (Validated.targetDirectory v)).


Definition quiet (t : list event) : Prop :=
  Forall (fun e => fs_mutating e = false) t.

(** ** Sample data *)

Definition example_manifest : json :=
  JObj [("scripts", JObj [("build", JStr "x"); ("prepare", JStr "y");
                          ("custom", JStr "z")]);
        ("dependencies", JObj [("a", JStr "1")]);
        ("devDependencies", JObj []);
        ("webDependencies", JObj []);
        ("extraField", JStr "drop-me")].

Definition example_cleaned : json :=
  JObj [("scripts", JObj [("prepare", JStr "y"); ("build", JStr "x");
                          ("custom", JStr "z")]);
        ("webDependencies", JObj []);
        ("dependencies", JObj [("a", JStr "1")]);
        ("devDependencies", JObj [])].

Definition manifest_without_scripts : json :=
  JObj [("name", JStr "app"); ("dependencies", JObj [("a", JStr "1")])].

(** A script named ["1"]: an array-index key, which an object enumerates
    before its other keys wherever the document wrote it. *)
Definition manifest_numbered_script : json :=
  JObj [("scripts", JObj [("1", JStr "z"); ("prepare", JStr "y")])].

Definition template_manifest (keywords : json) : json :=
  JObj [("name", JStr "tpl"); ("keywords", keywords)].

(** A host for the sample runs: paths are joined with [/], every tool is
    installed, the paths of [existing] exist, a manifest is found where the
    table [manifests] says, the registry prints [registry_stdout], the text
    ["KEYWORDS"] parses to [registry_keywords], and [failing] decides which
    calls fail. *)
Definition sample_host (version : string) (existing : list string)
    (manifests : list (string * json))
    (registry_stdout : error + string) (registry_keywords : json)
    (failing : event -> option error) : Host :=
  {| cwd := "/work";
     cwd_error := None;
     path_resolve := fun base p => base ++ "/" ++ p;
     path_join := String.concat "/";
     node_version := version;
     command_ok := fun _ => true;
     fs_exists := fun p => mem_string p existing;
     require_json := fun file =>
       match obj_get manifests file with
       | Some m => inr m
       | None => inl (SystemError "MODULE_NOT_FOUND")
       end;
     npm_info := fun _ => registry_stdout;
     JSON_parse := fun s =>
       if String.eqb s "KEYWORDS" then Some registry_keywords else None;
     fails := failing |}.

Definition never_fails : event -> option error := fun _ => None.

Definition sample_args (template target : string) : Argv.t :=
  {| Argv.template := Some (JStr template);
     Argv.useYarn := None;
     Argv.usePnpm := None;
     Argv.force := None;
     Argv.target := Some (JStr target);
     Argv.verbose := None;
     Argv.positional := [JStr "node"; JStr "create-index-app"] |}.

(** The target directory [/work/app] is already there. *)
Definition occupied_host : Host :=
  sample_host "18.0.0" ["/work/app"] [] (inl (ExecaError None)) JNull
    never_fails.

(** A local template [./tpl] whose manifest has the given keywords; the
    copied manifest is the specification's sample. *)
Definition local_host (keywords : json) : Host :=
  sample_host "18.0.0" []
    [("/work/./tpl/package.json", template_manifest keywords);
     ("/work/app/package.json", example_manifest)]
    (inl (ExecaError None)) JNull never_fails.

(** A registry template carrying the sentinel, on the given Node.js
    version and with the given failing calls. *)
Definition registry_host (version : string)
    (failing : event -> option error) : Host :=
  sample_host version []
    [("/work/app/package.json", example_manifest)]
    (inr "KEYWORDS") (JArr [JStr "leaf"; JStr sentinel]) failing.

(** The registry cannot be queried. *)
Definition offline_host : Host :=
  sample_host "18.0.0" [] [] (inl (ExecaError None)) JNull never_fails.

(** Only the final [npm install] fails. *)
Definition final_install_fails : event -> option error :=
  fun e =>
    match e with
    | Execa _ ["install"; "--loglevel"; _] _ =>
        Some (ExecaError None)
    | _ => None
    end.

(** Only the fetch of the registry template fails. *)
Definition fetch_fails : event -> option error :=
  fun e =>
    match e with
    | Execa _ ("install" :: _ :: "--ignore-scripts" :: _) _ =>
        Some (ExecaError (Some "npm ERR! 404"))
    | _ => None
    end.

(** ** Proof automation *)

(** Case analysis on the next test a computation is stuck on. *)
Ltac case_split :=
  repeat (cbn [bind emit exit ret throw fst snd app trace result];
          match goal with
          | |- context [match ?x with _ => _ end] =>
              lazymatch x with
              | context [match _ with _ => _ end] => fail
              | _ => destruct x eqn:?
              end
          end).

Ltac unfold_validateArgs :=
  unfold validateArgs, hasPmInstalled, logError, when.

(** ** Vocabulary of the further properties *)

(** The entries [cleanProject] removes from the target directory. *)
Definition removed_entries : list string :=
  ["package-lock.json"; "node_modules"; ".gitignore"; ".npmignore"; "LICENSE"].

(** The calls the main function of a validated request may make. *)
Definition expected_call (h : Host) (v : Validated.t) (e : event) : Prop :=
  let template := Validated.template v in
  let target := Validated.targetDirectory v in
  let installed := installedTemplate h template target in
  match e with
  | ConsoleLog _ | ConsoleError _ => True
  | CommandSync _ | ExistsSync _ => False
  | RequireJson file =>
      (isLocalTemplate template = true /\
       file = path_join h [installed; "package.json"]) \/
      file = path_join h [target; "package.json"]
  | Execa _ _ _ =>
      e = spec_install_call v \/
      (isLocalTemplate template = false /\
       (e = Execa "npm" ["info"; template; "keywords"; "--json"] no_options \/
        e = template_install_call template target (Validated.verbose v)))
  | MkdirSync dir => dir = target
  | WriteFile file _ => file = path_join h [target; "package.json"]
  | CopyDir src dest => src = installed /\ dest = target
  | RemoveSync p =>
      exists name, In name removed_entries /\ p = path_join h [target; name]
  end.

(** A keyword value that is truthy but neither an array nor a string. *)
Definition has_no_includes (k : json) : bool :=
  match k with
  | JBool true | JObj _ => true
  | JNum _ => truthy (Some k)
  | _ => false
  end.

(** Further sample data. *)

Definition flag : option json := Some (JBool true).

Definition args_with (template target useYarn usePnpm : option json)
    (extra : list json) : Argv.t :=
  {| Argv.template := template;
     Argv.useYarn := useYarn;
     Argv.usePnpm := usePnpm;
     Argv.force := None;
     Argv.target := target;
     Argv.verbose := None;
     Argv.positional := JStr "node" :: JStr "create-index-app" :: extra |}.

(** A host on which neither yarn nor pnpm answers [--version]. *)
Definition bare_host : Host :=
  {| cwd := "/work";
     cwd_error := None;
     path_resolve := fun base p => base ++ "/" ++ p;
     path_join := String.concat "/";
     node_version := "18.0.0";
     command_ok := fun _ => false;
     fs_exists := fun _ => false;
     require_json := fun _ => inl (SystemError "MODULE_NOT_FOUND");
     npm_info := fun _ => inl (ExecaError None);
     JSON_parse := fun _ => None;
     fails := never_fails |}.

(** Only the copy fails. *)
Definition copy_fails : event -> option error :=
  fun e =>
    match e with
    | CopyDir _ _ => Some (SystemError "ENOENT")
    | _ => None
    end.

(** Membership of a listed call in [expected_call]. *)
Ltac solve_expected :=
  first
    [ exact I
    | left; reflexivity
    | right; reflexivity
    | left; split; [assumption | reflexivity]
    | right; split; [assumption | left; reflexivity]
    | right; split; [assumption | right; reflexivity]
    | split; reflexivity
    | eexists; (split; [| reflexivity]); cbn; tauto ].

(** An out-of-date Node.js. *)
Definition old_node_host : Host :=
  registry_host "8.17.0" never_fails.

(** The registry answers, but not with JSON (a package without keywords
    prints nothing). *)
Definition silent_registry_host : Host :=
  sample_host "18.0.0" [] [] (inr EmptyString) JNull never_fails.

(** A host whose working directory has been removed. *)
Definition removed_cwd_host : Host :=
  {| cwd := "/work";
     cwd_error := Some (SystemError "ENOENT");
     path_resolve := fun base p => base ++ "/" ++ p;
     path_join := String.concat "/";
     node_version := "18.0.0";
     command_ok := fun _ => false;
     fs_exists := fun _ => false;
     require_json := fun _ => inl (SystemError "MODULE_NOT_FOUND");
     npm_info := fun _ => inl (ExecaError None);
     JSON_parse := fun _ => None;
     fails := never_fails |}.







(** Calls that start a subprocess: [execa] and [execa.commandSync]. *)
Definition is_subprocess (e : event) : bool :=
  match e with
  | Execa _ _ _ | CommandSync _ => true
  | _ => false
  end.

(** *** What the rewritten file holds

    [JSON.stringify] renders every value as it is, except numbers that
    JSON cannot write: a non-finite number (a manifest's [1e999] is read
    as [Infinity]) is written [null], and negative zero is written [0].
    [written v] is the document that the text [JSON.stringify(v, null, 2)]
    denotes. *)
Definition negative_zero (n : float) : bool :=
  PrimFloat.is_zero n && PrimFloat.get_sign n.

Definition written_number (n : float) : json :=
  if PrimFloat.is_nan n || PrimFloat.is_infinity n then JNull
  else if negative_zero n then JNum PrimFloat.zero
  else JNum n.

Fixpoint written (v : json) : json :=
  match v with
  | JNum n => written_number n
  | JArr items => JArr (map written items)
  | JObj members => JObj (map (fun kv => (fst kv, written (snd kv))) members)
  | JNull | JBool _ | JStr _ => v
  end.

Definition written_entry (kv : string * json) : string * json :=
  (fst kv, written (snd kv)).

(** Values [JSON.stringify] writes back exactly: every number in them is
    finite and not negative zero. *)
Fixpoint exact_json (v : json) : bool :=
  match v with
  | JNum n =>
      negb (PrimFloat.is_nan n || PrimFloat.is_infinity n)
      && negb (negative_zero n)
  | JArr items => forallb exact_json items
  | JObj members => forallb (fun kv => exact_json (snd kv)) members
  | JNull | JBool _ | JStr _ => true
  end.

(** The document the rewritten [package.json] holds after [cleanProject]
    read the manifest [m]. *)
Definition written_manifest (m : json) : error + json :=
  match cleaned_manifest m with
  | inl err => inl err
  | inr doc => inr (written doc)
  end.

(** A manifest with a dependency version too large for a number. *)
Definition overflowing_manifest : json :=
  JObj [("scripts", JObj [("start", JNum PrimFloat.infinity);
                          ("build", JStr "x")]);
        ("dependencies", JNum PrimFloat.infinity);
        ("name", JStr "app")].

(** * Properties *)

(** ** Computations *)

Lemma bind_normal_inv {A B : Type} (m : io A) (k : A -> io B) t b :
  bind m k = (t, Normal b) ->
  exists t1 a t2, m = (t1, Normal a) /\ k a = (t2, Normal b) /\ t = (t1 ++ t2)%list.
Proof.
  destruct m as [t1 [a | c | e]]; simpl; try discriminate.
  destruct (k a) as [t2 r] eqn:Hk. intros H. inversion H; subst.
  exists t1, a, t2. auto.
Qed.

Lemma bind_trace {A B : Type} (m : io A) (k : A -> io B) :
  trace (bind m k) =
  match result m with
  | Normal a => (trace m ++ trace (k a))%list
  | _ => trace m
  end.
Proof.
  destruct m as [t [a | c | e]]; simpl; try reflexivity.
  destruct (k a); reflexivity.
Qed.

Lemma bind_result {A B : Type} (m : io A) (k : A -> io B) :
  result (bind m k) =
  match result m with
  | Normal a => result (k a)
  | ExitProcess c => ExitProcess c
  | Throw e => Throw e
  end.
Proof.
  destruct m as [t [a | c | e]]; simpl; try reflexivity.
  destruct (k a); reflexivity.
Qed.

(** ** Objects *)

Lemma comes_before_plain (k k' : string) :
  array_index k = None -> comes_before k k' = false.
Proof. unfold comes_before. intros ->. reflexivity. Qed.

Lemma obj_define_append {A : Type} (o : props A) (k : string) (v : A) :
  array_index k = None ->
  ~ In k (map fst o) ->
  obj_define o k v = (o ++ [(k, v)])%list.
Proof.
  intros Hk. induction o as [| [k' v'] o IH]; simpl; intros Hin.
  - reflexivity.
  - destruct (String.eqb_spec k k') as [-> | Hne].
    + exfalso. apply Hin. now left.
    + rewrite (comes_before_plain k k' Hk). f_equal. apply IH.
      intros H. apply Hin. now right.
Qed.

Lemma obj_assign_append {A : Type} (source target : props A) :
  Forall (fun k => array_index k = None) (map fst source) ->
  NoDup (map fst source) ->
  (forall k, In k (map fst source) -> ~ In k (map fst target)) ->
  obj_assign target source = (target ++ source)%list.
Proof.
  unfold obj_assign.
  revert target. induction source as [| [k v] source IH]; simpl; intros target Hplain Hnd Hdisj.
  - now rewrite app_nil_r.
  - inversion Hplain as [| ? ? Hk Hrest]; subst.
    inversion Hnd as [| ? ? Hnotin Hnd']; subst.
    rewrite obj_define_append by auto.
    rewrite IH; auto.
    + now rewrite <- app_assoc.
    + intros k' Hin. rewrite map_app, in_app_iff. simpl.
      intros [H | [H | []]].
      * apply (Hdisj k'); auto.
      * subst. contradiction.
Qed.

Lemma obj_without_keys {A : Type} (ks : list string) (o : props A) (k : string) :
  In k (map fst (obj_without ks o)) -> In k (map fst o) /\ ~ In k ks.
Proof.
  unfold obj_without. rewrite in_map_iff. intros [[k' v] [Heq Hin]].
  simpl in Heq; subst. apply filter_In in Hin. destruct Hin as [Hin Hf].
  split.
  - apply in_map_iff. now exists (k, v).
  - simpl in Hf. intros Hmem. apply negb_true_iff in Hf.
    unfold mem_string in Hf.
    assert (existsb (String.eqb k) ks = true) as E.
    { apply existsb_exists. exists k. split; auto. apply String.eqb_refl. }
    congruence.
Qed.

Lemma obj_without_NoDup {A : Type} (ks : list string) (o : props A) :
  NoDup (map fst o) -> NoDup (map fst (obj_without ks o)).
Proof.
  unfold obj_without. induction o as [| [k v] o IH]; simpl; intros Hnd.
  - constructor.
  - inversion Hnd as [| ? ? Hnotin Hnd']; subst.
    destruct (negb (mem_string k ks)); simpl; auto.
    constructor; auto.
    intros Hin. apply Hnotin.
    apply in_map_iff in Hin. destruct Hin as [[k' v'] [Heq Hin]].
    simpl in Heq; subst. apply filter_In in Hin.
    apply in_map_iff. exists (k, v'). tauto.
Qed.

Lemma obj_without_plain {A : Type} (ks : list string) (o : props A) :
  Forall (fun k => array_index k = None) (map fst o) ->
  Forall (fun k => array_index k = None) (map fst (obj_without ks o)).
Proof.
  rewrite !Forall_forall. intros H k Hin.
  apply H. now apply (obj_without_keys ks o k).
Qed.

Lemma stringify_members_app (o1 o2 : props (option json)) :
  stringify_members (o1 ++ o2)%list =
  (stringify_members o1 ++ stringify_members o2)%list.
Proof.
  induction o1 as [| [k [v |]] o1 IH]; simpl; auto. now rewrite IH.
Qed.

Lemma stringify_members_defined (o : props json) :
  stringify_members (map (fun kv => (fst kv, Some (snd kv))) o) = o.
Proof.
  induction o as [| [k v] o IH]; simpl; auto. now rewrite IH.
Qed.

Lemma map_fst_defined (o : props json) :
  map fst (map (fun kv : string * json => (fst kv, Some (snd kv))) o) = map fst o.
Proof. rewrite map_map. reflexivity. Qed.

(** The reordering of a scripts object without index keys. *)
Lemma reorder_scripts_plain (scripts : props json) :
  NoDup (map fst scripts) ->
  Forall (fun k => array_index k = None) (map fst scripts) ->
  exists ordered,
    reorder_scripts (Some (JObj scripts)) = inr ordered /\
    stringify_members ordered = spec_scripts scripts.
Proof.
  intros Hnd Hplain. unfold reorder_scripts. eexists. split; [reflexivity |].
  cbn [own_enumerable js_get].
  assert (obj_assign [] (obj_without well_known_scripts scripts)
          = obj_without well_known_scripts scripts) as ->.
  { rewrite obj_assign_append; auto using obj_without_plain, obj_without_NoDup. }
  rewrite obj_assign_append.
  - rewrite stringify_members_app, stringify_members_defined.
    reflexivity.
  - rewrite map_fst_defined. now apply obj_without_plain.
  - rewrite map_fst_defined. now apply obj_without_NoDup.
  - intros k Hin. rewrite map_fst_defined in Hin.
    apply obj_without_keys in Hin. exact (proj2 Hin).
Qed.

(** ** cleanProject *)

Lemma cleaned_manifest_plain (m : json) (scripts : props json) :
  js_get m "scripts" = Some (JObj scripts) ->
  NoDup (map fst scripts) ->
  Forall (fun k => array_index k = None) (map fst scripts) ->
  cleaned_manifest m = inr (spec_cleaned m).
Proof.
  intros Hget Hnd Hplain.
  destruct m as [| | | | | members]; try discriminate.
  destruct (reorder_scripts_plain scripts Hnd Hplain) as [ordered [Hr Hs]].
  unfold cleaned_manifest, spec_cleaned, retained_fields.
  cbn [js_get present] in *. rewrite Hget, Hr, Hs.
  destruct (obj_get members "webDependencies"),
    (obj_get members "dependencies"),
    (obj_get members "devDependencies"); reflexivity.
Qed.

Lemma cleanProject_trace (h : Host) (dir : string) (m : json) :
  (forall p, fails h (RemoveSync p) = None) ->
  require_json h (path_join h [dir; "package.json"]) = inr m ->
  cleanProject h dir =
  bind ([RemoveSync (path_join h [dir; "package-lock.json"]);
         RemoveSync (path_join h [dir; "node_modules"]);
         RemoveSync (path_join h [dir; ".gitignore"]);
         RemoveSync (path_join h [dir; ".npmignore"]);
         RemoveSync (path_join h [dir; "LICENSE"]);
         RequireJson (path_join h [dir; "package.json"])], Normal tt)
       (fun _ =>
          match cleaned_manifest m with
          | inl err => throw err
          | inr doc =>
              perform h (WriteFile (path_join h [dir; "package.json"])
                                   (JsonIndent2 doc))
          end).
Proof.
  intros Hrm Hreq. unfold cleanProject, perform, require.
  rewrite !Hrm, Hreq. cbn [bind emit ret app].
  destruct (cleaned_manifest m) as [err | doc]; cbn; reflexivity.
Qed.

(** C3, as amended: for a manifest whose [scripts] member is an object
    without array-index script names, [cleanProject] writes exactly the
    four retained fields that are present, the scripts reordered with the
    present well-known names first and the others in their original
    relative order; the sample manifest of the specification is cleaned
    to the document it gives. *)
Theorem cleanProject_rewrites_manifest :
  (forall (h : Host) (dir : string) (m : json) (scripts : props json),
      (forall p, fails h (RemoveSync p) = None) ->
      require_json h (path_join h [dir; "package.json"]) = inr m ->
      js_get m "scripts" = Some (JObj scripts) ->
      NoDup (map fst scripts) ->
      Forall (fun k => array_index k = None) (map fst scripts) ->
      cleaned_manifest m = inr (spec_cleaned m) /\
      In (WriteFile (path_join h [dir; "package.json"])
                    (JsonIndent2 (spec_cleaned m)))
         (trace (cleanProject h dir))) /\
  cleaned_manifest example_manifest = inr example_cleaned /\
  spec_cleaned example_manifest = example_cleaned.
Proof.
  split; [| split; reflexivity].
  intros h dir m scripts Hrm Hreq Hget Hnd Hplain.
  pose proof (cleaned_manifest_plain m scripts Hget Hnd Hplain) as Hc.
  split; [exact Hc |].
  rewrite (cleanProject_trace h dir m Hrm Hreq), Hc.
  unfold perform. cbn [bind trace fst app].
  do 6 right. left. reflexivity.
Qed.

Lemma cleanProject_rewrites_manifest_witness :
  In (WriteFile "/work/app/package.json" (JsonIndent2 example_cleaned))
     (trace (cleanProject
               (sample_host "18.0.0" []
                  [("/work/app/package.json", example_manifest)]
                  (inl SyntaxError) JNull never_fails)
               "/work/app")).
Proof.
  refine (proj2 (proj1 cleanProject_rewrites_manifest
                   (sample_host "18.0.0" []
                      [("/work/app/package.json", example_manifest)]
                      (inl SyntaxError) JNull never_fails)
                   "/work/app" example_manifest
                   [("build", JStr "x"); ("prepare", JStr "y");
                    ("custom", JStr "z")]
                   _ _ _ _ _)).
  - reflexivity.
  - reflexivity.
  - reflexivity.
  - repeat constructor; simpl; intuition discriminate.
  - repeat constructor.
Defined.

(** C3, as stated, fails: a manifest without [scripts] is not rewritten at
    all, and a script whose name is an array index is written before the
    well-known names. *)
Lemma cleaned_manifest_counterexample :
  cleaned_manifest manifest_without_scripts = inl TypeError /\
  cleaned_manifest manifest_numbered_script =
    inr (JObj [("scripts", JObj [("1", JStr "z"); ("prepare", JStr "y")])]) /\
  spec_cleaned manifest_numbered_script =
    JObj [("scripts", JObj [("prepare", JStr "y"); ("1", JStr "z")])] /\
  ~ (forall m, cleaned_manifest m = inr (spec_cleaned m)).
Proof.
  repeat split; try reflexivity.
  intros H. specialize (H manifest_without_scripts). discriminate H.
Qed.

(** C10: when the manifest has no [scripts] member, [cleanProject] throws
    while destructuring it and writes no manifest. *)
Theorem cleanProject_requires_scripts (h : Host) (dir : string) (m : json) :
  require_json h (path_join h [dir; "package.json"]) = inr m ->
  js_get m "scripts" = None ->
  cleaned_manifest m = inl TypeError /\
  (exists e, result (cleanProject h dir) = Throw e) /\
  (forall file data, ~ In (WriteFile file data) (trace (cleanProject h dir))) /\
  ((forall p, fails h (RemoveSync p) = None) ->
   result (cleanProject h dir) = Throw TypeError).
Proof.
  intros Hreq Hget.
  assert (cleaned_manifest m = inl TypeError) as Hc.
  { unfold cleaned_manifest. rewrite Hget.
    destruct m; reflexivity. }
  split; [exact Hc |].
  unfold cleanProject, perform, require.
  destruct (fails h (RemoveSync (path_join h [dir; "package-lock.json"]))) eqn:F1;
    destruct (fails h (RemoveSync (path_join h [dir; "node_modules"]))) eqn:F2;
    destruct (fails h (RemoveSync (path_join h [dir; ".gitignore"]))) eqn:F3;
    destruct (fails h (RemoveSync (path_join h [dir; ".npmignore"]))) eqn:F4;
    destruct (fails h (RemoveSync (path_join h [dir; "LICENSE"]))) eqn:F5;
    cbn; rewrite ?Hreq; cbn; rewrite ?Hc; cbn;
    (split; [| split];
     [ eauto
     | intros file data; intuition discriminate
     | intros Hrm; rewrite ?Hrm in *; try discriminate; reflexivity ]).
Qed.

Lemma cleanProject_requires_scripts_witness :
  result (cleanProject
            (sample_host "18.0.0" []
               [("/work/app/package.json", manifest_without_scripts)]
               (inl SyntaxError) JNull never_fails)
            "/work/app") = Throw TypeError.
Proof.
  refine (proj2 (proj2 (proj2
            (cleanProject_requires_scripts
               (sample_host "18.0.0" []
                  [("/work/app/package.json", manifest_without_scripts)]
                  (inl SyntaxError) JNull never_fails)
               "/work/app" manifest_without_scripts _ _))) _).
  - reflexivity.
  - reflexivity.
  - intros p. reflexivity.
Defined.

(** ** validateArgs *)

Lemma validateArgs_events (h : Host) (a : Argv.t) :
  Forall (fun e => validation_event e = true) (trace (validateArgs h a)).
Proof.
  unfold_validateArgs. case_split;
    cbn [bind emit exit ret throw fst snd app trace result];
    repeat constructor.
Qed.

Lemma validation_event_quiet (t : list event) :
  Forall (fun e => validation_event e = true) t -> quiet t.
Proof.
  unfold quiet. apply Forall_impl. intros [] H; try reflexivity; discriminate H.
Qed.

Lemma validateArgs_quiet (h : Host) (a : Argv.t) :
  quiet (trace (validateArgs h a)).
Proof. apply validation_event_quiet, validateArgs_events. Qed.

Lemma validateArgs_exit_code (h : Host) (a : Argv.t) (c : Z) :
  result (validateArgs h a) = ExitProcess c -> c = 1%Z.
Proof.
  unfold_validateArgs. case_split;
    cbn [bind emit exit ret throw fst snd app trace result];
    congruence.
Qed.

Lemma validateArgs_target_exists (h : Host) (a : Argv.t) (dir : string) :
  resolve_in_cwd h (targetDirectoryRelative a) = inr dir ->
  fs_exists h dir = true ->
  truthy (Argv.force a) = false ->
  result (validateArgs h a) = ExitProcess 1%Z.
Proof.
  intros Hres Hex Hforce. unfold_validateArgs.
  rewrite Hres. cbv beta iota. rewrite Hex, Hforce. cbn [negb andb].
  case_split;
    cbn [bind emit exit ret throw fst snd app trace result negb andb];
    try reflexivity; congruence.
Qed.

(** C7: whenever both the yarn flag and the pnpm flag are set, whatever
    the other arguments and the host, the run consists of the conflict
    message and [process.exit(1)]. *)
Theorem yarn_and_pnpm_conflict (h : Host) (a : Argv.t) :
  truthy (Argv.useYarn a) = true ->
  truthy (Argv.usePnpm a) = true ->
  main h a =
    ([ConsoleError "You cannot use yarn and pnpm at the same time."],
     Exited 1%Z) /\
  exit_status h (snd (main h a)) = 1%Z.
Proof.
  intros Hy Hp.
  assert (validateArgs h a =
          ([ConsoleError "You cannot use yarn and pnpm at the same time."],
           ExitProcess 1%Z)) as Hv.
  { unfold validateArgs. rewrite Hy, Hp. reflexivity. }
  unfold main. rewrite Hv. split; reflexivity.
Qed.

Lemma yarn_and_pnpm_conflict_witness :
  main (sample_host "18.0.0" [] [] (inl SyntaxError) JNull never_fails)
       {| Argv.template := None;
          Argv.useYarn := Some (JBool true);
          Argv.usePnpm := Some (JBool true);
          Argv.force := Some (JBool true);
          Argv.target := None;
          Argv.verbose := None;
          Argv.positional := [JStr "node"; JStr "cli"; JStr "a"; JStr "b"] |}
  = ([ConsoleError "You cannot use yarn and pnpm at the same time."],
     Exited 1%Z).
Proof.
  refine (proj1 (yarn_and_pnpm_conflict _ _ _ _)); reflexivity.
Defined.

(** C4: when the resolved target directory exists and overwriting is not
    forced, the process exits with status 1 and the run performs no call
    that changes the disk. *)
Theorem existing_target_is_never_touched (h : Host) (a : Argv.t) (dir : string) :
  resolve_in_cwd h (targetDirectoryRelative a) = inr dir ->
  fs_exists h dir = true ->
  truthy (Argv.force a) = false ->
  snd (main h a) = Exited 1%Z /\
  exit_status h (snd (main h a)) = 1%Z /\
  quiet (fst (main h a)) /\
  Forall (fun e => validation_event e = true) (fst (main h a)).
Proof.
  intros Hres Hex Hforce.
  pose proof (validateArgs_target_exists h a dir Hres Hex Hforce) as Hr.
  pose proof (validateArgs_events h a) as Hq.
  unfold main. destruct (validateArgs h a) as [t r]. cbn in Hr, Hq. subst r.
  cbn. repeat split; auto using validation_event_quiet.
Qed.

Lemma existing_target_is_never_touched_witness :
  snd (main occupied_host (sample_args "@org/pkg" "app")) = Exited 1%Z /\
  exit_status occupied_host
    (snd (main occupied_host (sample_args "@org/pkg" "app"))) = 1%Z /\
  quiet (fst (main occupied_host (sample_args "@org/pkg" "app"))) /\
  Forall (fun e => validation_event e = true)
         (fst (main occupied_host (sample_args "@org/pkg" "app"))).
Proof.
  apply (existing_target_is_never_touched occupied_host
           (sample_args "@org/pkg" "app") "/work/app"); reflexivity.
Defined.


(** ** verifyProjectTemplate *)

Lemma quiet_no_copy (t : list event) (src dst : string) :
  quiet t -> ~ In (CopyDir src dst) t.
Proof.
  unfold quiet. rewrite Forall_forall. intros H Hin.
  specialize (H _ Hin). discriminate H.
Qed.

Lemma quiet_app (t1 t2 : list event) :
  quiet t1 -> quiet t2 -> quiet (t1 ++ t2).
Proof. unfold quiet. intros. apply Forall_app. auto. Qed.

Lemma read_keywords_quiet (h : Host) (l : bool) (t d : string) :
  quiet (trace (read_keywords h l t d)).
Proof.
  unfold quiet, read_keywords, require, try_catch. case_split;
    cbn [bind emit exit ret throw fst snd app trace result];
    repeat constructor.
Qed.

Lemma verifyProjectTemplate_quiet (h : Host) (l : bool) (t d : string) :
  quiet (trace (verifyProjectTemplate h l t d)).
Proof.
  unfold verifyProjectTemplate. rewrite bind_trace.
  pose proof (read_keywords_quiet h l t d) as Hq.
  destruct (result (read_keywords h l t d)) as [kw | c | e]; auto.
  apply quiet_app; auto.
  unfold quiet, reject_template. case_split;
    cbn [bind emit exit ret throw fst snd app trace result];
    repeat constructor.
Qed.

Lemma includes_sentinel_truthy (k : json) :
  js_includes k sentinel = inr true -> truthy (Some k) = true.
Proof.
  destruct k as [| b | n | s | items | members]; try discriminate.
  - destruct s; [discriminate | reflexivity].
  - reflexivity.
Qed.

(** The verifier returns only for a keyword value whose [includes] finds
    the sentinel. *)
Lemma verifyProjectTemplate_pass (h : Host) (l : bool) (t d : string) (u : unit) :
  result (verifyProjectTemplate h l t d) = Normal u ->
  exists k, result (read_keywords h l t d) = Normal (Some k) /\
            js_includes k sentinel = inr true.
Proof.
  unfold verifyProjectTemplate. rewrite bind_result.
  destruct (result (read_keywords h l t d)) as [[k |] | c | e]; try discriminate.
  destruct (truthy (Some k)); cbn [negb]; try discriminate.
  destruct (js_includes k sentinel) as [err | []] eqn:Hi; try discriminate.
  intros _. exists k. auto.
Qed.

Lemma verifyProjectTemplate_pass_iff (h : Host) (l : bool) (t d : string) :
  result (verifyProjectTemplate h l t d) = Normal tt <->
  exists k, result (read_keywords h l t d) = Normal (Some k) /\
            js_includes k sentinel = inr true.
Proof.
  split; [apply verifyProjectTemplate_pass |].
  intros [k [Hr Hi]]. unfold verifyProjectTemplate. rewrite bind_result, Hr.
  rewrite (includes_sentinel_truthy k Hi), Hi. reflexivity.
Qed.


(** A registry query that fails, or whose output is not JSON, ends the
    process. *)
Lemma read_keywords_unavailable (h : Host) (t d : string) :
  match npm_info h t with
  | inl _ => True
  | inr stdout => JSON_parse h stdout = None
  end ->
  read_keywords h false t d =
    ([Execa "npm" ["info"; t; "keywords"; "--json"] no_options;
      ConsoleLog EmptyString; ConsoleError cannot_verify_message],
     ExitProcess 1%Z).
Proof.
  unfold read_keywords. destruct (npm_info h t) as [err | stdout].
  - reflexivity.
  - intros ->. reflexivity.
Qed.

(** ** The main function *)

Lemma async_main_out_of_date (h : Host) (v : Validated.t) :
  node_out_of_date h = true ->
  async_main h v =
    ([ConsoleError ("Node.js v" ++ node_version h
                    ++ " is out of date and unsupported!");
      ConsoleError "Please use Node.js v10 or higher."],
     ExitProcess 1%Z).
Proof. unfold async_main. intros ->. reflexivity. Qed.

Lemma async_main_steps (h : Host) (v : Validated.t) :
  node_out_of_date h = false ->
  let verify :=
    verifyProjectTemplate h (isLocalTemplate (Validated.template v))
      (Validated.template v)
      (installedTemplate h (Validated.template v)
         (Validated.targetDirectory v)) in
  async_main h v =
  match result verify with
  | Normal _ =>
      match result (initialize h v) with
      | Normal _ =>
          ((banner ++ trace verify ++ trace (initialize h v)
            ++ trace (install_packages h v))%list,
           result (install_packages h v))
      | ExitProcess c =>
          ((banner ++ trace verify ++ trace (initialize h v))%list,
           ExitProcess c)
      | Throw e =>
          ((banner ++ trace verify ++ trace (initialize h v))%list, Throw e)
      end
  | ExitProcess c => ((banner ++ trace verify)%list, ExitProcess c)
  | Throw e => ((banner ++ trace verify)%list, Throw e)
  end.
Proof.
  intros Hnode verify. unfold async_main. fold verify. rewrite Hnode.
  destruct verify as [tv [[] | c | e]];
    destruct (initialize h v) as [ti [[] | c' | e']];
    destruct (install_packages h v) as [tp rp]; reflexivity.
Qed.

Lemma main_validated (h : Host) (a : Argv.t) (v : Validated.t) :
  result (validateArgs h a) = Normal v ->
  main h a = ((trace (validateArgs h a) ++ trace (async_main h v))%list,
              promise_outcome (result (async_main h v))).
Proof.
  unfold main. destruct (validateArgs h a) as [t r]. cbn. intros ->.
  destruct (async_main h v); reflexivity.
Qed.

Lemma main_not_validated (h : Host) (a : Argv.t) :
  (forall v, result (validateArgs h a) <> Normal v) ->
  fst (main h a) = trace (validateArgs h a) /\
  exit_status h (snd (main h a)) = 1%Z.
Proof.
  intros Hn. pose proof (validateArgs_exit_code h a) as Hc.
  unfold main. destruct (validateArgs h a) as [t [v | c | e]]; cbn in *.
  - now destruct (Hn v).
  - rewrite (Hc c); auto.
  - auto.
Qed.

Lemma append_empty (s : string) : s ++ EmptyString = s.
Proof. induction s as [| c s IH]; simpl; [reflexivity | now rewrite IH]. Qed.

Lemma cleanProject_events (h : Host) (dir : string) :
  Forall (fun e => match e with
                   | RemoveSync _ | RequireJson _ | WriteFile _ _ => True
                   | _ => False
                   end)
         (trace (cleanProject h dir)).
Proof.
  unfold cleanProject, perform, require. case_split;
    cbn [bind emit exit ret throw fst snd app trace result];
    repeat constructor.
Qed.

Lemma initialize_steps (h : Host) (v : Validated.t) :
  let template := Validated.template v in
  let target := Validated.targetDirectory v in
  let installed := installedTemplate h template target in
  let fetch := template_install_call template target (Validated.verbose v) in
  let placeholder :=
    WriteFile (path_join h [target; "package.json"]) (Text placeholder_manifest) in
  let head :=
    [ConsoleLog (nl ++ "Template: " ++ template);
     ConsoleLog ("Target directory: " ++ target);
     MkdirSync target] in
  initialize h v =
  match fails h (MkdirSync target) with
  | Some e => (head, Throw e)
  | None =>
      match fails h placeholder with
      | Some e => ((head ++ [placeholder])%list, Throw e)
      | None =>
          match (if isLocalTemplate template then None else fails h fetch) with
          | Some e =>
              ((head ++ [placeholder; fetch; ConsoleError (err_all e)])%list,
               Throw e)
          | None =>
              let fetched :=
                if isLocalTemplate template then [] else [fetch] in
              match fails h (CopyDir installed target) with
              | Some e =>
                  ((head ++ placeholder :: fetched
                    ++ [CopyDir installed target])%list, Throw e)
              | None =>
                  ((head ++ placeholder :: fetched
                    ++ CopyDir installed target
                    :: trace (cleanProject h target))%list,
                   result (cleanProject h target))
              end
          end
      end
  end.
Proof.
  cbv zeta. unfold initialize, perform, when, try_catch.
  destruct (fails h (MkdirSync (Validated.targetDirectory v))); [reflexivity |].
  destruct (fails h (WriteFile _ _)); [reflexivity |].
  destruct (isLocalTemplate (Validated.template v)); cbn [negb].
  - destruct (fails h (CopyDir _ _)); [reflexivity |].
    destruct (cleanProject h (Validated.targetDirectory v)); reflexivity.
  - destruct (fails h (template_install_call _ _ _)); [reflexivity |].
    destruct (fails h (CopyDir _ _)); [reflexivity |].
    destruct (cleanProject h (Validated.targetDirectory v)); reflexivity.
Qed.

Lemma installProcess_installer (v : Validated.t) :
  installProcess (Validated.verbose v)
    (npmInstallOptions (Validated.targetDirectory v)) (installer v)
  = inr (spec_install_call v).
Proof.
  unfold installProcess, installer, spec_install_call, chosen_manager,
    spec_command, pick.
  destruct (truthy (Validated.useYarn v)), (truthy (Validated.usePnpm v)),
    (truthy (Validated.verbose v)); reflexivity.
Qed.

Lemma install_packages_steps (h : Host) (v : Validated.t) :
  install_packages h v =
  match fails h (spec_install_call v) with
  | Some e =>
      ([ConsoleLog nl;
        ConsoleLog "Setting up packages...  this might take a minute";
        spec_install_call v], Throw e)
  | None =>
      ([ConsoleLog nl;
        ConsoleLog "Setting up packages...  this might take a minute";
        spec_install_call v;
        ConsoleLog nl;
        ConsoleLog (setup_message (Validated.targetDirectory v))], Normal tt)
  end.
Proof.
  unfold install_packages. rewrite installProcess_installer.
  unfold perform, printStep. rewrite append_empty.
  destruct (fails h (spec_install_call v)); reflexivity.
Qed.





(** On a string-valued [keywords], [includes] is the substring test. *)
Remark js_includes_string (s : string) :
  js_includes (JStr s) sentinel = inr (string_includes s sentinel).
Proof. reflexivity. Qed.






(** C2: when the registry query for a registry template fails, the
    verifier prints the guidance message and exits with status 1; the run
    ends there, with no copy and no change to the disk. *)
Theorem failed_registry_query_fails_closed
    (h : Host) (a : Argv.t) (v : Validated.t) (err : error) :
  result (validateArgs h a) = Normal v ->
  node_out_of_date h = false ->
  isLocalTemplate (Validated.template v) = false ->
  npm_info h (Validated.template v) = inl err ->
  main h a =
    ((trace (validateArgs h a) ++ banner
      ++ [Execa "npm" ["info"; Validated.template v; "keywords"; "--json"]
                no_options;
          ConsoleLog EmptyString;
          ConsoleError cannot_verify_message])%list,
     Exited 1%Z) /\
  exit_status h (snd (main h a)) = 1%Z /\
  quiet (fst (main h a)) /\
  (forall src dst, ~ In (CopyDir src dst) (fst (main h a))).
Proof.
  intros Hv Hnode Hremote Hinfo.
  assert (main h a =
    ((trace (validateArgs h a) ++ banner
      ++ [Execa "npm" ["info"; Validated.template v; "keywords"; "--json"]
                no_options;
          ConsoleLog EmptyString;
          ConsoleError cannot_verify_message])%list,
     Exited 1%Z)) as Hmain.
  { rewrite (main_validated h a v Hv), (async_main_steps h v Hnode). cbv zeta.
    unfold verifyProjectTemplate. rewrite Hremote.
    rewrite read_keywords_unavailable by (now rewrite Hinfo).
    reflexivity. }
  rewrite Hmain. cbn [fst snd].
  assert (quiet (trace (validateArgs h a) ++ banner
      ++ [Execa "npm" ["info"; Validated.template v; "keywords"; "--json"]
                no_options;
          ConsoleLog EmptyString;
          ConsoleError cannot_verify_message])) as Hq.
  { repeat apply quiet_app.
    - apply validateArgs_quiet.
    - repeat constructor.
    - repeat constructor. }
  repeat split; auto.
  intros src dst. now apply quiet_no_copy.
Qed.

Lemma failed_registry_query_fails_closed_witness :
  main offline_host (sample_args "@org/pkg" "app") =
    ([ExistsSync "/work/app";
      ConsoleLog (nl ++ " " ++ intro);
      ConsoleLog "Verifying template...";
      Execa "npm" ["info"; "@org/pkg"; "keywords"; "--json"] no_options;
      ConsoleLog EmptyString;
      ConsoleError cannot_verify_message],
     Exited 1%Z).
Proof.
  refine (proj1 (failed_registry_query_fails_closed offline_host
                   (sample_args "@org/pkg" "app") _ (ExecaError None)
                   eq_refl eq_refl eq_refl eq_refl)).
Defined.

(** ** Fetching a registry template *)

(** C5: for a registry template, once the target directory and the
    placeholder manifest are in place, the main function runs
    [npm install <template> --ignore-scripts --loglevel <verbose|error>]
    in the target directory with the combined output captured; when that
    subprocess fails, its [all] output is printed, the error is thrown
    again and nothing further runs; otherwise the copy follows. *)
Theorem registry_template_fetch (h : Host) (a : Argv.t) (v : Validated.t) :
  let template := Validated.template v in
  let target := Validated.targetDirectory v in
  let installed := installedTemplate h template target in
  let verify :=
    verifyProjectTemplate h (isLocalTemplate template) template installed in
  let placeholder :=
    WriteFile (path_join h [target; "package.json"]) (Text placeholder_manifest) in
  let fetch :=
    Execa "npm"
          ["install"; template; "--ignore-scripts"; "--loglevel";
           if truthy (Validated.verbose v) then "verbose" else "error"]
          {| opt_cwd := Some target; opt_all := true;
             opt_stdio_inherit := false |} in
  let before :=
    (trace (validateArgs h a) ++ banner ++ trace verify
     ++ [ConsoleLog (nl ++ "Template: " ++ template);
         ConsoleLog ("Target directory: " ++ target);
         MkdirSync target; placeholder])%list in
  result (validateArgs h a) = Normal v ->
  node_out_of_date h = false ->
  isLocalTemplate template = false ->
  result verify = Normal tt ->
  fails h (MkdirSync target) = None ->
  fails h placeholder = None ->
  (forall err,
      fails h fetch = Some err ->
      main h a = ((before ++ [fetch; ConsoleError (err_all err)])%list,
                  UnhandledRejection err)) /\
  (fails h fetch = None ->
   exists rest,
     fst (main h a) = (before ++ fetch :: CopyDir installed target :: rest)%list) /\
  (forall out, err_all (ExecaError (Some out)) = out).
Proof.
  intros template target installed verify placeholder fetch before
         Hv Hnode Hremote Hver Hmk Hwr.
  assert (fetch = template_install_call template target (Validated.verbose v))
    as Hfetch by reflexivity.
  pose proof (initialize_steps h v) as Hinit. cbv zeta in Hinit.
  fold template target installed placeholder in Hinit.
  rewrite <- Hfetch, Hmk, Hwr, Hremote in Hinit.
  rewrite (main_validated h a v Hv), (async_main_steps h v Hnode). cbv zeta.
  fold template target installed verify. rewrite Hver.
  split; [| split].
  - intros err Hf. rewrite Hf in Hinit. rewrite Hinit. cbn [result snd trace fst].
    unfold before. rewrite <- !app_assoc. reflexivity.
  - intros Hf. rewrite Hf in Hinit. rewrite Hinit.
    destruct (fails h (CopyDir installed target)).
    + cbn [result snd trace fst]. exists []. unfold before.
      rewrite <- !app_assoc. reflexivity.
    + cbn [result snd trace fst].
      destruct (result (cleanProject h target));
        cbn [trace fst]; eexists; unfold before;
        rewrite <- !app_assoc; cbn [app]; reflexivity.
  - reflexivity.
Qed.

Lemma registry_template_fetch_witness :
  main (registry_host "18.0.0" fetch_fails) (sample_args "@org/pkg" "app") =
    ([ExistsSync "/work/app";
      ConsoleLog (nl ++ " " ++ intro);
      ConsoleLog "Verifying template...";
      Execa "npm" ["info"; "@org/pkg"; "keywords"; "--json"] no_options;
      ConsoleLog (nl ++ "Template: @org/pkg");
      ConsoleLog "Target directory: /work/app";
      MkdirSync "/work/app";
      WriteFile "/work/app/package.json" (Text placeholder_manifest);
      Execa "npm"
            ["install"; "@org/pkg"; "--ignore-scripts"; "--loglevel"; "error"]
            {| opt_cwd := Some "/work/app"; opt_all := true;
               opt_stdio_inherit := false |};
      ConsoleError "npm ERR! 404"],
     UnhandledRejection (ExecaError (Some "npm ERR! 404"))) /\
  exists rest,
    fst (main (registry_host "18.0.0" never_fails)
              (sample_args "@org/pkg" "app")) =
    ([ExistsSync "/work/app";
      ConsoleLog (nl ++ " " ++ intro);
      ConsoleLog "Verifying template...";
      Execa "npm" ["info"; "@org/pkg"; "keywords"; "--json"] no_options;
      ConsoleLog (nl ++ "Template: @org/pkg");
      ConsoleLog "Target directory: /work/app";
      MkdirSync "/work/app";
      WriteFile "/work/app/package.json" (Text placeholder_manifest)]
     ++ Execa "npm"
            ["install"; "@org/pkg"; "--ignore-scripts"; "--loglevel"; "error"]
            {| opt_cwd := Some "/work/app"; opt_all := true;
               opt_stdio_inherit := false |}
     :: CopyDir "/work/app/node_modules/@org/pkg" "/work/app" :: rest)%list.
Proof.
  split.
  - refine (proj1 (registry_template_fetch (registry_host "18.0.0" fetch_fails)
                     (sample_args "@org/pkg" "app") _
                     eq_refl eq_refl eq_refl eq_refl eq_refl eq_refl)
                  (ExecaError (Some "npm ERR! 404")) eq_refl).
  - refine (proj1 (proj2 (registry_template_fetch
                     (registry_host "18.0.0" never_fails)
                     (sample_args "@org/pkg" "app") _
                     eq_refl eq_refl eq_refl eq_refl eq_refl eq_refl))
                  eq_refl).
Defined.

(** ** Local and registry templates *)

Lemma isLocalTemplate_dot (template : string) :
  isLocalTemplate template = true <-> exists rest, template = String "."%char rest.
Proof.
  unfold isLocalTemplate, startsWith.
  destruct template as [| c rest]; cbn [String.prefix].
  - split; [discriminate | intros [r Hr]; discriminate].
  - destruct (ascii_dec "."%char c) as [<- | Hne].
    + split; [eauto | intros _; destruct rest; reflexivity].
    + split; [discriminate | intros [r Hr]; inversion Hr; congruence].
Qed.

(** C8: a template identifier is local exactly when it begins with a dot.
    A local template is resolved against the working directory and
    verified from the manifest found there, and no subprocess fetches it;
    any other identifier is looked up in the registry and fetched into the
    target directory's [node_modules], from where it is copied. *)
Theorem template_classification (h : Host) (v : Validated.t) :
  let template := Validated.template v in
  let target := Validated.targetDirectory v in
  (isLocalTemplate template = true <->
   exists rest, template = String "."%char rest) /\
  (isLocalTemplate template = true ->
   installedTemplate h template target = path_resolve h (cwd h) template /\
   trace (template_keywords h v) =
     [RequireJson (path_join h [path_resolve h (cwd h) template;
                                "package.json"])] /\
   (forall file args options,
       ~ In (Execa file args options) (trace (initialize h v)))) /\
  (isLocalTemplate template = false ->
   installedTemplate h template target =
     path_join h [target; "node_modules"; template] /\
   (exists rest,
       trace (template_keywords h v) =
         Execa "npm" ["info"; template; "keywords"; "--json"] no_options
         :: rest) /\
   (fails h (MkdirSync target) = None ->
    fails h (WriteFile (path_join h [target; "package.json"])
                       (Text placeholder_manifest)) = None ->
    In (template_install_call template target (Validated.verbose v))
       (trace (initialize h v)))).
Proof.
  intros template target. split; [apply isLocalTemplate_dot |].
  split; intros Hl.
  - assert (installedTemplate h template target
            = path_resolve h (cwd h) template) as Hi.
    { unfold installedTemplate. now rewrite Hl. }
    split; [exact Hi |]. split.
    + unfold template_keywords. fold template target. rewrite Hi, Hl.
      unfold read_keywords, require.
      destruct (require_json h _) as [err | []]; reflexivity.
    + intros file args options.
      pose proof (cleanProject_events h target) as Hc.
      rewrite Forall_forall in Hc.
      rewrite (initialize_steps h v). cbv zeta. fold template target.
      rewrite Hl.
      destruct (fails h (MkdirSync target)); [cbn; intuition discriminate |].
      destruct (fails h (WriteFile _ _)); [cbn; intuition discriminate |].
      destruct (fails h (CopyDir _ _)); cbn [trace fst app In];
        intros H;
        repeat match type of H with
          | _ \/ _ => destruct H as [H | H]
          | False => destruct H
          | _ = Execa _ _ _ => discriminate H
          end;
        try (specialize (Hc _ H); destruct Hc).
  - assert (installedTemplate h template target
            = path_join h [target; "node_modules"; template]) as Hi.
    { unfold installedTemplate. now rewrite Hl. }
    split; [exact Hi |]. split.
    + unfold template_keywords. fold template target. rewrite Hl.
      unfold read_keywords, try_catch.
      destruct (npm_info h template) as [err | stdout];
        [| destruct (JSON_parse h stdout)]; eexists; reflexivity.
    + intros Hmk Hwr.
      rewrite (initialize_steps h v). cbv zeta. fold template target.
      rewrite Hmk, Hwr, Hl.
      destruct (fails h (template_install_call _ _ _));
        [| destruct (fails h (CopyDir _ _))];
        cbn [trace fst app In]; tauto.
Qed.

Lemma template_classification_witness :
  installedTemplate (local_host (JArr [JStr sentinel])) "./tpl" "/work/app"
    = "/work/./tpl" /\
  installedTemplate (registry_host "18.0.0" never_fails) "@org/pkg" "/work/app"
    = "/work/app/node_modules/@org/pkg".
Proof.
  split.
  - refine (proj1 (proj1 (proj2 (template_classification
                      (local_host (JArr [JStr sentinel]))
                      {| Validated.template := "./tpl";
                         Validated.useYarn := None;
                         Validated.usePnpm := None;
                         Validated.targetDirectoryRelative := Some (JStr "app");
                         Validated.targetDirectory := "/work/app";
                         Validated.verbose := None |})) eq_refl)).
  - refine (proj1 (proj2 (proj2 (template_classification
                      (registry_host "18.0.0" never_fails)
                      {| Validated.template := "@org/pkg";
                         Validated.useYarn := None;
                         Validated.usePnpm := None;
                         Validated.targetDirectoryRelative := Some (JStr "app");
                         Validated.targetDirectory := "/work/app";
                         Validated.verbose := None |})) eq_refl)).
Defined.

(** ** The dependency install *)

Lemma main_completed (h : Host) (a : Argv.t) (v : Validated.t) :
  result (validateArgs h a) = Normal v ->
  snd (main h a) = Completed ->
  exists before,
    fst (main h a) = (before ++ trace (install_packages h v))%list /\
    result (install_packages h v) = Normal tt.
Proof.
  intros Hv. rewrite (main_validated h a v Hv). cbn [fst snd].
  destruct (node_out_of_date h) eqn:Hnode.
  { rewrite (async_main_out_of_date h v Hnode). discriminate. }
  rewrite (async_main_steps h v Hnode). cbv zeta.
  destruct (result (verifyProjectTemplate _ _ _ _)); try discriminate.
  destruct (result (initialize h v)); try discriminate.
  cbn [result snd trace fst].
  destruct (result (install_packages h v)) as [[] | c | e]; try discriminate.
  intros _. eexists. split; [| reflexivity].
  rewrite !app_assoc. reflexivity.
Qed.

(** C9: [installProcess] spawns exactly the command of the table for the
    package manager and the verbosity it is given; the manager the flags
    select is always one of the three; the dependency install of a run is
    that command, run in the target directory with inherited streams, and
    every run that completes has performed it. *)
Theorem install_command_mapping :
  (forall (pm : manager) (verbose : option json) (options : exec_options),
      installProcess verbose options (manager_name pm) =
      inr (Execa (fst (spec_command pm (truthy verbose)))
                 (snd (spec_command pm (truthy verbose))) options)) /\
  (forall v : Validated.t,
      installer v = manager_name (chosen_manager v) /\
      installProcess (Validated.verbose v)
        (npmInstallOptions (Validated.targetDirectory v)) (installer v)
      = inr (spec_install_call v)) /\
  (forall (h : Host) (v : Validated.t),
      exists rest,
        trace (install_packages h v) =
          ConsoleLog nl
          :: ConsoleLog "Setting up packages...  this might take a minute"
          :: spec_install_call v :: rest) /\
  (forall (h : Host) (a : Argv.t) (v : Validated.t),
      result (validateArgs h a) = Normal v ->
      snd (main h a) = Completed ->
      In (spec_install_call v) (fst (main h a))).
Proof.
  split; [| split; [| split]].
  - intros pm verbose options. unfold installProcess, pick.
    destruct pm, (truthy verbose); reflexivity.
  - intros v. split; [| apply installProcess_installer].
    unfold installer, chosen_manager.
    destruct (truthy (Validated.useYarn v)), (truthy (Validated.usePnpm v));
      reflexivity.
  - intros h v. rewrite (install_packages_steps h v).
    destruct (fails h (spec_install_call v)); eexists; reflexivity.
  - intros h a v Hv Hdone.
    destruct (main_completed h a v Hv Hdone) as [before [Ht Hr]].
    rewrite Ht, in_app_iff. right.
    rewrite (install_packages_steps h v).
    destruct (fails h (spec_install_call v)); cbn; auto.
Qed.

Lemma install_command_mapping_witness :
  In (Execa "npm" ["install"; "--loglevel"; "error"]
            {| opt_cwd := Some "/work/app"; opt_all := false;
               opt_stdio_inherit := true |})
     (fst (main (registry_host "18.0.0" never_fails)
                (sample_args "@org/pkg" "app"))).
Proof.
  refine (proj2 (proj2 (proj2 install_command_mapping))
            (registry_host "18.0.0" never_fails)
            (sample_args "@org/pkg" "app") _ eq_refl eq_refl).
Defined.

(** A failed dependency install rejects the main function's promise; the
    status of the process then depends on the Node.js version. *)
Lemma failed_final_install (h : Host) (a : Argv.t) (v : Validated.t)
    (err : error) :
  result (validateArgs h a) = Normal v ->
  node_out_of_date h = false ->
  result (verifyProjectTemplate h (isLocalTemplate (Validated.template v))
            (Validated.template v)
            (installedTemplate h (Validated.template v)
               (Validated.targetDirectory v))) = Normal tt ->
  result (initialize h v) = Normal tt ->
  fails h (spec_install_call v) = Some err ->
  snd (main h a) = UnhandledRejection err /\
  exit_status h (snd (main h a)) = (if rejections_are_fatal h then 1 else 0)%Z.
Proof.
  intros Hv Hnode Hver Hinit Hf.
  rewrite (main_validated h a v Hv), (async_main_steps h v Hnode). cbv zeta.
  rewrite Hver, Hinit, (install_packages_steps h v), Hf.
  split; reflexivity.
Qed.

(** C6 fails on Node.js 12, a version the program accepts: the final
    [npm install] fails, the main function's promise is rejected and
    nobody handles it, and the process ends with status 0.  On Node.js 18
    the same run ends with status 1. *)
Theorem failed_install_status_on_node_12 :
  let args := sample_args "@org/pkg" "app" in
  let old := registry_host "12.22.12" final_install_fails in
  let recent := registry_host "18.0.0" final_install_fails in
  node_out_of_date old = false /\
  snd (main old args) = UnhandledRejection (ExecaError None) /\
  exit_status old (snd (main old args)) = 0%Z /\
  snd (main recent args) = UnhandledRejection (ExecaError None) /\
  exit_status recent (snd (main recent args)) = 1%Z.
Proof. cbv zeta. repeat split; vm_compute; reflexivity. Qed.

(** * Further properties *)

(** ** validateArgs: what a returned request guarantees *)

(** Whenever [validateArgs] returns, the template is the string that was
    passed, the target directory is the resolution of [target || _[2]]
    against the working directory, the two package-manager flags are not
    both set, a requested package manager answered its [--version] probe,
    there are at most three positional entries, and the target directory
    does not exist unless overwriting is forced. *)
Theorem validateArgs_returns (h : Host) (a : Argv.t) (v : Validated.t) :
  result (validateArgs h a) = Normal v ->
  Argv.template a = Some (JStr (Validated.template v)) /\
  resolve_in_cwd h (targetDirectoryRelative a)
    = inr (Validated.targetDirectory v) /\
  Validated.targetDirectoryRelative v = targetDirectoryRelative a /\
  Validated.useYarn v = Argv.useYarn a /\
  Validated.usePnpm v = Argv.usePnpm a /\
  Validated.verbose v = Argv.verbose a /\
  (truthy (Argv.useYarn a) && truthy (Argv.usePnpm a) = false) /\
  (truthy (Argv.useYarn a) = true -> command_ok h "yarn --version" = true) /\
  (truthy (Argv.usePnpm a) = true -> command_ok h "pnpm --version" = true) /\
  (length (Argv.positional a) <= 3)%nat /\
  (fs_exists h (Validated.targetDirectory v) = false \/
   truthy (Argv.force a) = true).
Proof.
  unfold_validateArgs. case_split;
    cbn [bind emit exit ret throw fst snd app trace result];
    intros H; try discriminate H; inversion H; subst; clear H;
    cbn [Validated.template Validated.targetDirectory
         Validated.targetDirectoryRelative Validated.useYarn
         Validated.usePnpm Validated.verbose];
    repeat match goal with
      | H : negb _ = false |- _ => apply negb_false_iff in H
      | H : (_ <? _)%nat = false |- _ => apply Nat.ltb_ge in H
      | H : _ && negb _ = false |- _ =>
          apply andb_false_iff in H; rewrite negb_false_iff in H
      end;
    repeat split; auto; try congruence; try discriminate.
Qed.

Lemma validateArgs_returns_witness :
  resolve_in_cwd (registry_host "18.0.0" never_fails)
    (targetDirectoryRelative (sample_args "@org/pkg" "app"))
  = inr "/work/app".
Proof.
  exact (proj1 (proj2 (validateArgs_returns
                         (registry_host "18.0.0" never_fails)
                         (sample_args "@org/pkg" "app")
                         {| Validated.template := "@org/pkg";
                            Validated.useYarn := None;
                            Validated.usePnpm := None;
                            Validated.targetDirectoryRelative :=
                              Some (JStr "app");
                            Validated.targetDirectory := "/work/app";
                            Validated.verbose := None |}
                         eq_refl))).
Defined.

Lemma main_exits_in_validation (h : Host) (a : Argv.t) (t : list event) :
  validateArgs h a = (t, ExitProcess 1%Z) ->
  main h a = (t, Exited 1%Z).
Proof. unfold main. intros ->. reflexivity. Qed.

(** ** validateArgs: the ways it refuses *)

(** A template that is missing or is not a string (a number, a flag
    without a value, a repeated flag) never passes validation: the
    process exits with status 1 having made only validation calls; with
    the default package manager and a [--target], the run is just the
    message. *)
Theorem missing_template_is_refused (h : Host) (a : Argv.t) :
  (forall s, Argv.template a <> Some (JStr s)) ->
  snd (main h a) = Exited 1%Z /\
  Forall (fun e => validation_event e = true) (fst (main h a)) /\
  (truthy (Argv.useYarn a) = false ->
   truthy (Argv.usePnpm a) = false ->
   truthy (Argv.target a) = true ->
   main h a = ([ConsoleError "Missing --template argument."], Exited 1%Z)).
Proof.
  intros Hno.
  assert (result (validateArgs h a) = ExitProcess 1%Z) as Hr.
  { unfold_validateArgs. case_split;
      cbn [bind emit exit ret throw fst snd app trace result];
      try reflexivity; subst; exfalso; eapply Hno;
      first [eassumption | reflexivity]. }
  pose proof (validateArgs_events h a) as He.
  split; [| split].
  - unfold main. destruct (validateArgs h a) as [t r]. cbn in Hr. now subst r.
  - unfold main. destruct (validateArgs h a) as [t r]. cbn in Hr, He.
    now subst r.
  - intros Hy Hp Ht. apply main_exits_in_validation.
    unfold_validateArgs. rewrite Hy, Hp, Ht. cbn [andb negb].
    destruct (Argv.template a) as [[| | | s | |] |] eqn:E; try reflexivity.
    now destruct (Hno s).
Qed.

Lemma missing_template_is_refused_witness :
  main bare_host (args_with (Some (JNum 5%float)) (Some (JStr "app")) None None [])
  = ([ConsoleError "Missing --template argument."], Exited 1%Z).
Proof.
  refine (proj2 (proj2 (missing_template_is_refused bare_host
                   (args_with (Some (JNum 5%float)) (Some (JStr "app"))
                              None None []) _))
            eq_refl eq_refl eq_refl).
  intros s. discriminate.
Defined.

(** Without a truthy [--target] and with no positional argument after the
    interpreter and the script, and likewise with more than three
    positional entries, the process exits with status 1; with the default
    package manager the run is just the respective message (the second
    one for a string template). *)
Theorem positional_arguments_are_checked (h : Host) (a : Argv.t) :
  (truthy (Argv.target a) = false ->
   length (Argv.positional a) = 2%nat ->
   snd (main h a) = Exited 1%Z /\
   (truthy (Argv.useYarn a) = false ->
    truthy (Argv.usePnpm a) = false ->
    main h a = ([ConsoleError "Missing --target directory."], Exited 1%Z))) /\
  ((3 < length (Argv.positional a))%nat ->
   snd (main h a) = Exited 1%Z /\
   (forall s,
       truthy (Argv.useYarn a) = false ->
       truthy (Argv.usePnpm a) = false ->
       Argv.template a = Some (JStr s) ->
       main h a = ([ConsoleError "Unexpected extra arguments."], Exited 1%Z))).
Proof.
  split.
  - intros Ht Hl.
    assert (result (validateArgs h a) = ExitProcess 1%Z) as Hr.
    { unfold_validateArgs. rewrite Ht, Hl. cbn [negb andb Nat.eqb].
      case_split;
        cbn [bind emit exit ret throw fst snd app trace result];
        reflexivity. }
    split.
    + unfold main. destruct (validateArgs h a) as [t r]. cbn in Hr.
      now subst r.
    + intros Hy Hp. apply main_exits_in_validation.
      unfold_validateArgs. rewrite Hy, Hp, Ht, Hl. reflexivity.
  - intros Hl. pose proof Hl as Hlt. apply Nat.ltb_lt in Hlt.
    assert ((length (Argv.positional a) =? 2)%nat = false) as Hne
      by (apply Nat.eqb_neq; lia).
    assert (result (validateArgs h a) = ExitProcess 1%Z) as Hr.
    { unfold_validateArgs. rewrite Hlt, Hne.
      case_split;
        cbn [bind emit exit ret throw fst snd app trace result];
        reflexivity. }
    split.
    + unfold main. destruct (validateArgs h a) as [t r]. cbn in Hr.
      now subst r.
    + intros s Hy Hp Htpl. apply main_exits_in_validation.
      unfold_validateArgs. rewrite Hy, Hp, Htpl, Hlt, Hne.
      rewrite !andb_false_r. reflexivity.
Qed.

Lemma positional_arguments_are_checked_witness :
  main bare_host (args_with (Some (JStr "@org/pkg")) None None None [])
  = ([ConsoleError "Missing --target directory."], Exited 1%Z) /\
  main bare_host
       (args_with (Some (JStr "@org/pkg")) None None None
                  [JStr "app"; JStr "more"])
  = ([ConsoleError "Unexpected extra arguments."], Exited 1%Z).
Proof.
  split.
  - refine (proj2 (proj1 (positional_arguments_are_checked bare_host
               (args_with (Some (JStr "@org/pkg")) None None None []))
               eq_refl eq_refl) eq_refl eq_refl).
  - refine (proj2 (proj2 (positional_arguments_are_checked bare_host
               (args_with (Some (JStr "@org/pkg")) None None None
                          [JStr "app"; JStr "more"])) _)
               "@org/pkg" eq_refl eq_refl eq_refl).
    cbn. lia.
Defined.

(** A requested package manager that does not answer its [--version]
    probe ends the run with status 1 right after the probe. *)
Theorem absent_package_manager_is_refused (h : Host) (a : Argv.t) :
  (truthy (Argv.useYarn a) = true ->
   truthy (Argv.usePnpm a) = false ->
   command_ok h "yarn --version" = false ->
   main h a = ([CommandSync "yarn --version";
                ConsoleError "yarn doesn't seem to be installed."],
               Exited 1%Z)) /\
  (truthy (Argv.useYarn a) = false ->
   truthy (Argv.usePnpm a) = true ->
   command_ok h "pnpm --version" = false ->
   main h a = ([CommandSync "pnpm --version";
                ConsoleError "pnpm doesn't seem to be installed."],
               Exited 1%Z)).
Proof.
  split; intros Hy Hp Hc; apply main_exits_in_validation;
    unfold_validateArgs; rewrite Hy, Hp;
    cbn [andb bind emit ret fst snd app append];
    rewrite Hc; reflexivity.
Qed.

Lemma absent_package_manager_is_refused_witness :
  main bare_host
       (args_with (Some (JStr "@org/pkg")) (Some (JStr "app")) flag None [])
  = ([CommandSync "yarn --version";
      ConsoleError "yarn doesn't seem to be installed."], Exited 1%Z) /\
  main bare_host
       (args_with (Some (JStr "@org/pkg")) (Some (JStr "app")) None flag [])
  = ([CommandSync "pnpm --version";
      ConsoleError "pnpm doesn't seem to be installed."], Exited 1%Z).
Proof.
  split.
  - exact (proj1 (absent_package_manager_is_refused bare_host
              (args_with (Some (JStr "@org/pkg")) (Some (JStr "app"))
                         flag None []))
             eq_refl eq_refl eq_refl).
  - exact (proj2 (absent_package_manager_is_refused bare_host
              (args_with (Some (JStr "@org/pkg")) (Some (JStr "app"))
                         None flag []))
             eq_refl eq_refl eq_refl).
Defined.

Lemma validateArgs_probes (h : Host) (a : Argv.t) (command : string) :
  In (CommandSync command) (trace (validateArgs h a)) ->
  (command = "yarn --version" /\ truthy (Argv.useYarn a) = true) \/
  (command = "pnpm --version" /\ truthy (Argv.usePnpm a) = true).
Proof.
  unfold_validateArgs. case_split;
    cbn [bind emit exit ret throw fst snd app trace result In append];
    intros H;
    repeat match type of H with
      | _ \/ _ => destruct H as [H | H]
      | False => destruct H
      | _ = CommandSync _ => inversion H; subst; clear H
      end;
    auto.
Qed.

(** [validateArgs] throws only where it resolves the target directory:
    the error of [process.cwd()] when the working directory is gone, and
    otherwise a [TypeError] exactly because [target || _[2]] is not a
    string ([--target] without a value, a numeric directory name).  With a
    string template, the default package manager and at most three
    positional entries the run is then that uncaught error, with nothing
    printed and status 1. *)
Theorem target_resolution_throws (h : Host) (a : Argv.t) :
  (forall e, result (validateArgs h a) = Throw e ->
             cwd_error h = Some e \/
             (cwd_error h = None /\ e = TypeError /\
              forall s, targetDirectoryRelative a <> Some (JStr s))) /\
  (forall tpl,
      Argv.template a = Some (JStr tpl) ->
      truthy (Argv.useYarn a) = false ->
      truthy (Argv.usePnpm a) = false ->
      (length (Argv.positional a) <= 3)%nat ->
      truthy (Argv.target a) = true \/ length (Argv.positional a) <> 2%nat ->
      (forall e, cwd_error h = Some e ->
                 main h a = ([], Uncaught e) /\
                 exit_status h (snd (main h a)) = 1%Z) /\
      (cwd_error h = None ->
       (forall s, targetDirectoryRelative a <> Some (JStr s)) ->
       main h a = ([], Uncaught TypeError) /\
       exit_status h (snd (main h a)) = 1%Z)).
Proof.
  split.
  - unfold_validateArgs. unfold resolve_in_cwd.
    destruct (cwd_error h) as [err |] eqn:Hcwd.
    + case_split.
      all: cbn [bind emit exit ret throw fst snd app trace result].
      all: intros e H; try discriminate H; inversion H; subst; auto.
    + case_split.
      all: cbn [bind emit exit ret throw fst snd app trace result].
      all: intros e H; try discriminate H; inversion H; subst.
      all: right; split; [reflexivity |].
      all: split; [reflexivity | intros ? ?; congruence].
  - intros tpl Htpl Hy Hp Hl Ht.
    assert (forall e, resolve_in_cwd h (targetDirectoryRelative a) = inl e ->
                      validateArgs h a = ([], Throw e)) as Hv.
    { intros e He. unfold_validateArgs. rewrite Htpl, Hy, Hp, He.
      assert ((3 <? length (Argv.positional a))%nat = false) as ->
        by (apply Nat.ltb_ge; exact Hl).
      assert (negb (truthy (Argv.target a))
              && (length (Argv.positional a) =? 2)%nat = false) as ->.
      { destruct Ht as [-> | Hne]; [reflexivity |].
        apply Nat.eqb_neq in Hne. now rewrite Hne, andb_false_r. }
      reflexivity. }
    split.
    + intros e Hcwd.
      assert (validateArgs h a = ([], Throw e)) as Hv'.
      { apply Hv. unfold resolve_in_cwd. now rewrite Hcwd. }
      unfold main. rewrite Hv'. split; reflexivity.
    + intros Hcwd Hrel.
      assert (validateArgs h a = ([], Throw TypeError)) as Hv'.
      { apply Hv. unfold resolve_in_cwd. rewrite Hcwd.
        destruct (targetDirectoryRelative a) as [[| | | s | |] |] eqn:E;
          try reflexivity.
        now destruct (Hrel s). }
      unfold main. rewrite Hv'. split; reflexivity.
Qed.

Lemma target_resolution_throws_witness :
  main removed_cwd_host
       (args_with (Some (JStr "@org/pkg")) (Some (JStr "app")) None None [])
  = ([], Uncaught (SystemError "ENOENT")) /\
  main bare_host
       (args_with (Some (JStr "@org/pkg")) None None None [JNum 2024%float])
  = ([], Uncaught TypeError).
Proof.
  split.
  - refine (proj1 (proj1 (proj2 (target_resolution_throws removed_cwd_host
               (args_with (Some (JStr "@org/pkg")) (Some (JStr "app"))
                          None None []))
               "@org/pkg" eq_refl eq_refl eq_refl _ _)
               (SystemError "ENOENT") eq_refl)).
    + cbn. lia.
    + left. reflexivity.
  - refine (proj1 (proj2 (proj2 (target_resolution_throws bare_host
               (args_with (Some (JStr "@org/pkg")) None None None
                          [JNum 2024%float]))
               "@org/pkg" eq_refl eq_refl eq_refl _ _)
               eq_refl _)).
    + cbn. lia.
    + right. cbn. lia.
    + intros s. discriminate.
Defined.

(** ** The calls of a run *)

Lemma verifyProjectTemplate_expected (h : Host) (v : Validated.t) :
  Forall (expected_call h v)
    (trace (verifyProjectTemplate h (isLocalTemplate (Validated.template v))
              (Validated.template v)
              (installedTemplate h (Validated.template v)
                 (Validated.targetDirectory v)))).
Proof.
  unfold verifyProjectTemplate, read_keywords, require, try_catch,
    reject_template.
  case_split.
  all: cbn [bind emit exit ret throw fst snd app trace result].
  all: repeat (apply Forall_cons || apply Forall_nil).
  all: solve_expected.
Qed.

Lemma cleanProject_expected (h : Host) (v : Validated.t) :
  Forall (expected_call h v)
    (trace (cleanProject h (Validated.targetDirectory v))).
Proof.
  unfold cleanProject, perform, require.
  case_split.
  all: cbn [bind emit exit ret throw fst snd app trace result].
  all: repeat (apply Forall_cons || apply Forall_nil).
  all: solve_expected.
Qed.

Lemma initialize_expected (h : Host) (v : Validated.t) :
  Forall (expected_call h v) (trace (initialize h v)).
Proof.
  pose proof (cleanProject_expected h v) as Hc.
  rewrite (initialize_steps h v). cbv zeta.
  destruct (fails h (MkdirSync _)).
  { repeat (apply Forall_cons || apply Forall_nil); solve_expected. }
  destruct (fails h (WriteFile _ _)).
  { repeat (apply Forall_cons || apply Forall_nil); solve_expected. }
  destruct (isLocalTemplate (Validated.template v)) eqn:Hl.
  - destruct (fails h (CopyDir _ _)); cbn [trace fst app].
    all: repeat (apply Forall_cons).
    all: try exact Hc; try apply Forall_nil.
    all: solve_expected.
  - destruct (fails h (template_install_call _ _ _)).
    { repeat (apply Forall_cons || apply Forall_nil); solve_expected. }
    destruct (fails h (CopyDir _ _)); cbn [trace fst app].
    all: repeat (apply Forall_cons).
    all: try exact Hc; try apply Forall_nil.
    all: solve_expected.
Qed.

Lemma install_packages_expected (h : Host) (v : Validated.t) :
  Forall (expected_call h v) (trace (install_packages h v)).
Proof.
  rewrite (install_packages_steps h v).
  destruct (fails h (spec_install_call v)); cbn [trace fst];
    repeat (apply Forall_cons || apply Forall_nil);
    try exact I; unfold expected_call, spec_install_call; auto.
Qed.

Lemma async_main_expected (h : Host) (v : Validated.t) :
  Forall (expected_call h v) (trace (async_main h v)).
Proof.
  destruct (node_out_of_date h) eqn:Hnode.
  - rewrite (async_main_out_of_date h v Hnode).
    apply Forall_cons; [exact I |]. apply Forall_cons; [exact I |].
    apply Forall_nil.
  - rewrite (async_main_steps h v Hnode). cbv zeta.
    pose proof (verifyProjectTemplate_expected h v) as Hv.
    pose proof (initialize_expected h v) as Hi.
    pose proof (install_packages_expected h v) as Hp.
    assert (Forall (expected_call h v) banner) as Hb.
    { apply Forall_cons; [exact I |]. apply Forall_cons; [exact I |].
      apply Forall_nil. }
    destruct (result (verifyProjectTemplate _ _ _ _));
      [destruct (result (initialize h v)) | |];
      cbn [trace fst]; rewrite !Forall_app; repeat split; assumption.
Qed.

Lemma main_calls (h : Host) (a : Argv.t) :
  Forall (fun e =>
            validation_event e = true \/
            exists v, result (validateArgs h a) = Normal v /\
                      expected_call h v e)
         (fst (main h a)).
Proof.
  pose proof (validateArgs_events h a) as He.
  destruct (result (validateArgs h a)) as [v | c | e] eqn:Hv.
  - rewrite (main_validated h a v Hv). cbn [fst].
    apply Forall_app. split.
    + revert He. apply Forall_impl. auto.
    + pose proof (async_main_expected h v) as Ha.
      revert Ha. apply Forall_impl. intros e He'. right. exists v. auto.
  - destruct (main_not_validated h a) as [Ht _]; [congruence |].
    rewrite Ht. revert He. apply Forall_impl. auto.
  - destruct (main_not_validated h a) as [Ht _]; [congruence |].
    rewrite Ht. revert He. apply Forall_impl. auto.
Qed.

(** Every call of a run is a validation call (a message, a [--version]
    probe, the existence test) or, once the request is validated, one of
    the calls of the main function: it creates only the target directory,
    writes only the target's [package.json], copies only the template into
    the target, removes only the five fixed entries of the target, reads
    only the target's manifest and a local template's, and spawns only
    the dependency install and, for a registry template, the registry
    query and the template fetch. *)
Theorem run_calls (h : Host) (a : Argv.t) :
  Forall (fun e =>
            validation_event e = true \/
            exists v, result (validateArgs h a) = Normal v /\
                      expected_call h v e)
         (fst (main h a)).
Proof.
  pose proof (validateArgs_events h a) as He.
  destruct (result (validateArgs h a)) as [v | c | e] eqn:Hv.
  - rewrite (main_validated h a v Hv). cbn [fst].
    apply Forall_app. split.
    + revert He. apply Forall_impl. auto.
    + pose proof (async_main_expected h v) as Ha.
      revert Ha. apply Forall_impl. intros e He'. right. exists v. auto.
  - destruct (main_not_validated h a) as [Ht _]; [congruence |].
    rewrite Ht. revert He. apply Forall_impl. auto.
  - destruct (main_not_validated h a) as [Ht _]; [congruence |].
    rewrite Ht. revert He. apply Forall_impl. auto.
Qed.

(** The [--version] probe is the only command a run executes
    synchronously, and only for a package manager whose flag is set; the
    default npm is never probed. *)
Theorem probes_follow_flags (h : Host) (a : Argv.t) (command : string) :
  In (CommandSync command) (fst (main h a)) ->
  (command = "yarn --version" /\ truthy (Argv.useYarn a) = true) \/
  (command = "pnpm --version" /\ truthy (Argv.usePnpm a) = true).
Proof.
  intros Hin. apply (validateArgs_probes h a).
  destruct (result (validateArgs h a)) as [v | c | e] eqn:Hv.
  - rewrite (main_validated h a v Hv) in Hin. cbn [fst] in Hin.
    apply in_app_or in Hin. destruct Hin as [Hin | Hin]; [exact Hin |].
    pose proof (async_main_expected h v) as Ha.
    rewrite Forall_forall in Ha. destruct (Ha _ Hin).
  - destruct (main_not_validated h a) as [Ht _]; [congruence |].
    now rewrite Ht in Hin.
  - destruct (main_not_validated h a) as [Ht _]; [congruence |].
    now rewrite Ht in Hin.
Qed.

Lemma probes_follow_flags_witness :
  ("yarn --version" = "yarn --version" /\ truthy flag = true) \/
  ("yarn --version" = "pnpm --version" /\ truthy None = true).
Proof.
  apply (probes_follow_flags bare_host
           (args_with (Some (JStr "@org/pkg")) (Some (JStr "app"))
                      flag None []) "yarn --version").
  left. reflexivity.
Defined.

(** No call that changes the disk is made before the verifier has
    returned: the directory is created, files are written, fetched, copied
    or removed only in a validated run whose template passed
    verification. *)
Theorem no_change_before_verification (h : Host) (a : Argv.t) (e : event) :
  In e (fst (main h a)) ->
  fs_mutating e = true ->
  exists v,
    result (validateArgs h a) = Normal v /\
    node_out_of_date h = false /\
    result (verifyProjectTemplate h (isLocalTemplate (Validated.template v))
              (Validated.template v)
              (installedTemplate h (Validated.template v)
                 (Validated.targetDirectory v))) = Normal tt.
Proof.
  intros Hin Hm.
  assert (forall t, quiet t -> ~ In e t) as Hquiet.
  { unfold quiet. intros t Hq Hi. rewrite Forall_forall in Hq.
    specialize (Hq _ Hi). congruence. }
  destruct (result (validateArgs h a)) as [v | c | err] eqn:Hv.
  - exists v. split; [reflexivity |].
    rewrite (main_validated h a v Hv) in Hin. cbn [fst] in Hin.
    apply in_app_or in Hin. destruct Hin as [Hin | Hin].
    { now apply (Hquiet _ (validateArgs_quiet h a)) in Hin. }
    destruct (node_out_of_date h) eqn:Hnode.
    { rewrite (async_main_out_of_date h v Hnode) in Hin.
      exfalso. revert Hin. apply Hquiet.
      apply Forall_cons; [reflexivity |]. apply Forall_cons; [reflexivity |].
      apply Forall_nil. }
    split; [reflexivity |].
    rewrite (async_main_steps h v Hnode) in Hin. cbv zeta in Hin.
    pose proof (verifyProjectTemplate_quiet h
                  (isLocalTemplate (Validated.template v))
                  (Validated.template v)
                  (installedTemplate h (Validated.template v)
                     (Validated.targetDirectory v))) as Hq.
    assert (quiet banner) as Hb.
    { apply Forall_cons; [reflexivity |]. apply Forall_cons; [reflexivity |].
      apply Forall_nil. }
    destruct (result (verifyProjectTemplate _ _ _ _)) as [[] | c | err];
      [reflexivity | |];
      exfalso; revert Hin; apply Hquiet; apply quiet_app; assumption.
  - destruct (main_not_validated h a) as [Ht _]; [congruence |].
    rewrite Ht in Hin.
    now apply (Hquiet _ (validateArgs_quiet h a)) in Hin.
  - destruct (main_not_validated h a) as [Ht _]; [congruence |].
    rewrite Ht in Hin.
    now apply (Hquiet _ (validateArgs_quiet h a)) in Hin.
Qed.

Lemma no_change_before_verification_witness :
  exists v,
    result (validateArgs (registry_host "18.0.0" never_fails)
              (sample_args "@org/pkg" "app")) = Normal v /\
    node_out_of_date (registry_host "18.0.0" never_fails) = false /\
    result (verifyProjectTemplate (registry_host "18.0.0" never_fails)
              (isLocalTemplate (Validated.template v))
              (Validated.template v)
              (installedTemplate (registry_host "18.0.0" never_fails)
                 (Validated.template v) (Validated.targetDirectory v)))
    = Normal tt.
Proof.
  apply (no_change_before_verification (registry_host "18.0.0" never_fails)
           (sample_args "@org/pkg" "app") (MkdirSync "/work/app")).
  - vm_compute. do 6 right. left. reflexivity.
  - reflexivity.
Defined.

(** ** The version gate *)

(** On a Node.js whose major version is below 10 a validated run prints
    the two version messages and exits with status 1 before anything
    else: the template is not even looked up. *)
Theorem out_of_date_node_stops (h : Host) (a : Argv.t) (v : Validated.t) :
  result (validateArgs h a) = Normal v ->
  node_out_of_date h = true ->
  main h a =
    ((trace (validateArgs h a)
      ++ [ConsoleError ("Node.js v" ++ node_version h
                        ++ " is out of date and unsupported!");
          ConsoleError "Please use Node.js v10 or higher."])%list,
     Exited 1%Z).
Proof.
  intros Hv Hnode.
  rewrite (main_validated h a v Hv), (async_main_out_of_date h v Hnode).
  reflexivity.
Qed.

Lemma out_of_date_node_stops_witness :
  main old_node_host (sample_args "@org/pkg" "app") =
    ([ExistsSync "/work/app";
      ConsoleError "Node.js v8.17.0 is out of date and unsupported!";
      ConsoleError "Please use Node.js v10 or higher."],
     Exited 1%Z).
Proof.
  exact (out_of_date_node_stops old_node_host (sample_args "@org/pkg" "app")
           _ eq_refl eq_refl).
Defined.

(** ** More on the verifier *)

(** When the registry query succeeds but its output is not JSON, the
    verifier treats it like a failed query: guidance message, exit with
    status 1, nothing copied. *)
Theorem unparseable_keywords_fail_closed
    (h : Host) (a : Argv.t) (v : Validated.t) (stdout : string) :
  result (validateArgs h a) = Normal v ->
  node_out_of_date h = false ->
  isLocalTemplate (Validated.template v) = false ->
  npm_info h (Validated.template v) = inr stdout ->
  JSON_parse h stdout = None ->
  main h a =
    ((trace (validateArgs h a) ++ banner
      ++ [Execa "npm" ["info"; Validated.template v; "keywords"; "--json"]
                no_options;
          ConsoleLog EmptyString;
          ConsoleError cannot_verify_message])%list,
     Exited 1%Z).
Proof.
  intros Hv Hnode Hremote Hinfo Hparse.
  rewrite (main_validated h a v Hv), (async_main_steps h v Hnode). cbv zeta.
  unfold verifyProjectTemplate. rewrite Hremote.
  rewrite read_keywords_unavailable by (now rewrite Hinfo).
  reflexivity.
Qed.

Lemma unparseable_keywords_fail_closed_witness :
  main silent_registry_host (sample_args "@org/pkg" "app") =
    ([ExistsSync "/work/app";
      ConsoleLog (nl ++ " " ++ intro);
      ConsoleLog "Verifying template...";
      Execa "npm" ["info"; "@org/pkg"; "keywords"; "--json"] no_options;
      ConsoleLog EmptyString;
      ConsoleError cannot_verify_message],
     Exited 1%Z).
Proof.
  exact (unparseable_keywords_fail_closed silent_registry_host
           (sample_args "@org/pkg" "app") _ EmptyString
           eq_refl eq_refl eq_refl eq_refl eq_refl).
Defined.

Lemma verifyProjectTemplate_throws (h : Host) (l : bool) (t d : string)
    (tk : list event) (k : json) :
  read_keywords h l t d = (tk, Normal (Some k)) ->
  has_no_includes k = true ->
  verifyProjectTemplate h l t d = (tk, Throw TypeError).
Proof.
  intros Hr Hno. unfold verifyProjectTemplate. rewrite Hr. unfold bind.
  assert (truthy (Some k) = true) as Ht.
  { destruct k as [| [] | n | s | items | members];
      try discriminate Hno; auto. }
  rewrite Ht. cbn [negb].
  destruct k as [| b | n | s | items | members]; try discriminate Hno;
    cbn [js_includes throw]; now rewrite app_nil_r.
Qed.

(** A truthy keyword value that is neither an array nor a string ([true],
    a non-zero number, an object) has no [includes]: the verifier throws a
    [TypeError] instead of printing its message, the main function's
    promise is rejected and the run stops without touching the disk. *)
Theorem keywords_without_includes_throw
    (h : Host) (a : Argv.t) (v : Validated.t) (k : json) :
  result (validateArgs h a) = Normal v ->
  node_out_of_date h = false ->
  result (template_keywords h v) = Normal (Some k) ->
  has_no_includes k = true ->
  main h a =
    ((trace (validateArgs h a) ++ banner
      ++ trace (template_keywords h v))%list,
     UnhandledRejection TypeError) /\
  quiet (fst (main h a)).
Proof.
  intros Hv Hnode Hk Hno.
  assert (main h a =
    ((trace (validateArgs h a) ++ banner
      ++ trace (template_keywords h v))%list,
     UnhandledRejection TypeError)) as Hmain.
  { rewrite (main_validated h a v Hv), (async_main_steps h v Hnode).
    cbv zeta. unfold template_keywords in *.
    destruct (read_keywords h _ _ _) as [tk rk] eqn:Hr. cbn in Hk. subst rk.
    rewrite (verifyProjectTemplate_throws h _ _ _ tk k Hr Hno).
    reflexivity. }
  split; [exact Hmain |].
  rewrite Hmain. cbn [fst]. repeat apply quiet_app.
  - apply validateArgs_quiet.
  - apply Forall_cons; [reflexivity |]. apply Forall_cons; [reflexivity |].
    apply Forall_nil.
  - apply read_keywords_quiet.
Qed.

Lemma keywords_without_includes_throw_witness :
  snd (main (local_host (JObj [("create-index-app--template", JBool true)]))
            (sample_args "./tpl" "app"))
  = UnhandledRejection TypeError.
Proof.
  pose proof (proj1 (keywords_without_includes_throw
             (local_host (JObj [("create-index-app--template", JBool true)]))
             (sample_args "./tpl" "app") _
             (JObj [("create-index-app--template", JBool true)])
             eq_refl eq_refl eq_refl eq_refl)) as H.
  exact (f_equal snd H).
Defined.

Lemma main_probes (h : Host) (a : Argv.t) (command : string) :
  In (CommandSync command) (fst (main h a)) ->
  (command = "yarn --version" /\ truthy (Argv.useYarn a) = true) \/
  (command = "pnpm --version" /\ truthy (Argv.usePnpm a) = true).
Proof.
  intros Hin. apply (validateArgs_probes h a).
  destruct (result (validateArgs h a)) as [v | c | e] eqn:Hv.
  - rewrite (main_validated h a v Hv) in Hin. cbn [fst] in Hin.
    apply in_app_or in Hin. destruct Hin as [Hin | Hin]; [exact Hin |].
    pose proof (async_main_expected h v) as Ha.
    rewrite Forall_forall in Ha. destruct (Ha _ Hin).
  - destruct (main_not_validated h a) as [Ht _]; [congruence |].
    now rewrite Ht in Hin.
  - destruct (main_not_validated h a) as [Ht _]; [congruence |].
    now rewrite Ht in Hin.
Qed.

(** For a local template the only subprocesses of a run, whether started
    by [execa] or by [execa.commandSync], are the [--version] probe of a
    package manager whose flag is set and the dependency install: the
    registry is never queried and nothing is fetched. *)
Theorem local_template_subprocesses
    (h : Host) (a : Argv.t) (v : Validated.t) (e : event) :
  result (validateArgs h a) = Normal v ->
  isLocalTemplate (Validated.template v) = true ->
  In e (fst (main h a)) ->
  is_subprocess e = true ->
  e = spec_install_call v \/
  (e = CommandSync "yarn --version" /\ truthy (Argv.useYarn a) = true) \/
  (e = CommandSync "pnpm --version" /\ truthy (Argv.usePnpm a) = true).
Proof.
  intros Hv Hl Hin Hs.
  destruct e as [| | command | | | file args options | | | |];
    try discriminate Hs.
  - right.
    destruct (main_probes h a command Hin) as [[-> Hy] | [-> Hp]]; auto.
  - left.
    pose proof (main_calls h a) as Hc. rewrite Forall_forall in Hc.
    destruct (Hc _ Hin) as [Hval | [v' [Hv' He]]]; [discriminate Hval |].
    assert (v' = v) by congruence. subst v'.
    destruct He as [He | [Hremote _]]; [exact He | congruence].
Qed.

Lemma local_template_subprocesses_witness :
  (CommandSync "yarn --version"
   = spec_install_call
       {| Validated.template := "./tpl";
          Validated.useYarn := flag;
          Validated.usePnpm := None;
          Validated.targetDirectoryRelative := Some (JStr "app");
          Validated.targetDirectory := "/work/app";
          Validated.verbose := None |}) \/
  (CommandSync "yarn --version" = CommandSync "yarn --version" /\
   truthy flag = true) \/
  (CommandSync "yarn --version" = CommandSync "pnpm --version" /\
   truthy None = true).
Proof.
  apply (local_template_subprocesses
           (local_host (JArr [JStr sentinel]))
           (args_with (Some (JStr "./tpl")) (Some (JStr "app")) flag None [])).
  - reflexivity.
  - reflexivity.
  - vm_compute. left. reflexivity.
  - reflexivity.
Defined.

(** ** String-valued keywords *)

Lemma prefix_spec (p s : string) :
  String.prefix p s = true <-> exists rest, s = p ++ rest.
Proof.
  revert p. induction s as [| c s IH]; intros [| a p]; cbn [String.prefix].
  - split; [exists EmptyString; reflexivity | reflexivity].
  - split; [discriminate | intros [rest H]; discriminate H].
  - split; [exists (String c s); reflexivity | reflexivity].
  - destruct (ascii_dec a c) as [-> | Hne].
    + rewrite IH. split; intros [rest H]; exists rest.
      * cbn. now rewrite H.
      * cbn in H. now inversion H.
    + split; [discriminate | intros [rest H]; cbn in H; inversion H; congruence].
Qed.

Lemma string_includes_spec (s p : string) :
  string_includes s p = true <-> exists before after, s = before ++ p ++ after.
Proof.
  induction s as [| c s IH]; cbn [string_includes].
  - rewrite orb_false_r, prefix_spec. split.
    + intros [rest H]. exists EmptyString, rest. exact H.
    + intros [[| b before] [after H]]; [eauto | discriminate H].
  - rewrite orb_true_iff, prefix_spec, IH. split.
    + intros [[rest H] | [before [after H]]].
      * exists EmptyString, rest. exact H.
      * exists (String c before), after. cbn. now rewrite H.
    + intros [[| b before] [after H]].
      * left. exists after. exact H.
      * right. cbn in H. inversion H. eauto.
Qed.

(** When the keyword value is a string, the verifier accepts the template
    exactly when the sentinel occurs somewhere inside that string, not
    only when the string is the sentinel. *)
Theorem string_keywords_match_substrings
    (h : Host) (l : bool) (t d s : string) :
  result (read_keywords h l t d) = Normal (Some (JStr s)) ->
  (result (verifyProjectTemplate h l t d) = Normal tt <->
   exists before after, s = before ++ sentinel ++ after).
Proof.
  intros Hk. rewrite verifyProjectTemplate_pass_iff, <- string_includes_spec.
  split.
  - intros [k [Hk' Hi]]. rewrite Hk in Hk'. inversion Hk'; subst.
    cbn in Hi. now inversion Hi.
  - intros Hi. exists (JStr s). split; [exact Hk |]. cbn. now rewrite Hi.
Qed.

Lemma string_keywords_match_substrings_witness :
  result (verifyProjectTemplate
            (local_host (JStr "not-a-create-index-app--template-at-all"))
            true "./tpl" "/work/./tpl") = Normal tt.
Proof.
  apply (string_keywords_match_substrings
           (local_host (JStr "not-a-create-index-app--template-at-all"))
           true "./tpl" "/work/./tpl"
           "not-a-create-index-app--template-at-all" eq_refl).
  exists "not-a-", "-at-all". reflexivity.
Defined.

(** ** Exit codes *)

Lemma verifyProjectTemplate_exit_code (h : Host) (l : bool) (t d : string)
    (c : Z) :
  result (verifyProjectTemplate h l t d) = ExitProcess c -> c = 1%Z.
Proof.
  unfold verifyProjectTemplate, read_keywords, require, try_catch,
    reject_template.
  case_split.
  all: cbn [bind emit exit ret throw fst snd app trace result].
  all: congruence.
Qed.

Lemma cleanProject_no_exit (h : Host) (dir : string) (c : Z) :
  result (cleanProject h dir) <> ExitProcess c.
Proof.
  unfold cleanProject, perform, require.
  case_split.
  all: cbn [bind emit exit ret throw fst snd app trace result].
  all: congruence.
Qed.

Lemma initialize_no_exit (h : Host) (v : Validated.t) (c : Z) :
  result (initialize h v) <> ExitProcess c.
Proof.
  pose proof (cleanProject_no_exit h (Validated.targetDirectory v) c) as Hc.
  rewrite (initialize_steps h v). cbv zeta.
  destruct (fails h (MkdirSync _)); [discriminate |].
  destruct (fails h (WriteFile _ _)); [discriminate |].
  destruct (if isLocalTemplate (Validated.template v) then None else _);
    [discriminate |].
  destruct (fails h (CopyDir _ _)); [discriminate | exact Hc].
Qed.

Lemma install_packages_no_exit (h : Host) (v : Validated.t) (c : Z) :
  result (install_packages h v) <> ExitProcess c.
Proof.
  rewrite (install_packages_steps h v).
  destruct (fails h (spec_install_call v)); discriminate.
Qed.

Lemma async_main_exit_code (h : Host) (v : Validated.t) (c : Z) :
  result (async_main h v) = ExitProcess c -> c = 1%Z.
Proof.
  destruct (node_out_of_date h) eqn:Hnode.
  - rewrite (async_main_out_of_date h v Hnode). cbn. congruence.
  - rewrite (async_main_steps h v Hnode). cbv zeta.
    pose proof (verifyProjectTemplate_exit_code h
                  (isLocalTemplate (Validated.template v))
                  (Validated.template v)
                  (installedTemplate h (Validated.template v)
                     (Validated.targetDirectory v)) c) as Hv.
    pose proof (initialize_no_exit h v c) as Hi.
    pose proof (install_packages_no_exit h v c) as Hp.
    destruct (result (verifyProjectTemplate _ _ _ _)) as [[] | c' | e'];
      [destruct (result (initialize h v)) as [[] | c' | e'] | |];
      cbn [result snd]; intros H; try discriminate H; auto; congruence.
Qed.

(** The only code the program ever passes to [process.exit] is 1, so the
    status of a run is 0 or 1; it is 0 only for a run that completed or,
    where unhandled rejections are not fatal, for a run whose main
    function threw. *)
Theorem exit_codes (h : Host) (a : Argv.t) :
  (forall c, snd (main h a) = Exited c -> c = 1%Z) /\
  (exit_status h (snd (main h a)) = 0%Z \/
   exit_status h (snd (main h a)) = 1%Z) /\
  (exit_status h (snd (main h a)) = 0%Z ->
   snd (main h a) = Completed \/
   (rejections_are_fatal h = false /\
    exists e, snd (main h a) = UnhandledRejection e)).
Proof.
  assert (forall c, snd (main h a) = Exited c -> c = 1%Z) as Hexit.
  { intros c. destruct (result (validateArgs h a)) as [v | c' | e] eqn:Hv.
    - rewrite (main_validated h a v Hv). cbn [snd].
      pose proof (async_main_exit_code h v c) as Ha.
      destruct (result (async_main h v)); cbn; intros H;
        try discriminate H. inversion H; subst. auto.
    - pose proof (validateArgs_exit_code h a c' Hv) as Hc. subst c'.
      unfold main. destruct (validateArgs h a) as [t r]. cbn in Hv. subst r.
      cbn. congruence.
    - unfold main. destruct (validateArgs h a) as [t r]. cbn in Hv. subst r.
      cbn. discriminate. }
  split; [exact Hexit |].
  destruct (snd (main h a)) as [| c | e | e] eqn:Ho; cbn [exit_status].
  - split; auto.
  - rewrite (Hexit c eq_refl). split; [auto | discriminate].
  - split; [auto | discriminate].
  - destruct (rejections_are_fatal h); split; auto; try discriminate.
    intros _. right. eauto.
Qed.

Lemma exit_codes_witness :
  exit_status occupied_host
    (snd (main occupied_host (sample_args "@org/pkg" "app"))) = 0%Z \/
  exit_status occupied_host
    (snd (main occupied_host (sample_args "@org/pkg" "app"))) = 1%Z.
Proof.
  exact (proj1 (proj2 (exit_codes occupied_host
                         (sample_args "@org/pkg" "app")))).
Defined.

(** ** More on cleanProject *)

(** The manifest is rewritten only as the last step: a write by
    [cleanProject] means that all five removals succeeded, that the
    manifest was read, and that what is written is its cleaned form. *)
Theorem manifest_is_written_last (h : Host) (dir file : string) (data : content) :
  In (WriteFile file data) (trace (cleanProject h dir)) ->
  (forall name, In name removed_entries ->
                fails h (RemoveSync (path_join h [dir; name])) = None) /\
  exists m doc,
    require_json h (path_join h [dir; "package.json"]) = inr m /\
    cleaned_manifest m = inr doc /\
    file = path_join h [dir; "package.json"] /\
    data = JsonIndent2 doc.
Proof.
  unfold cleanProject, perform, require.
  destruct (fails h (RemoveSync (path_join h [dir; "package-lock.json"]))) eqn:F1;
    [cbn; intuition discriminate |].
  destruct (fails h (RemoveSync (path_join h [dir; "node_modules"]))) eqn:F2;
    [cbn; intuition discriminate |].
  destruct (fails h (RemoveSync (path_join h [dir; ".gitignore"]))) eqn:F3;
    [cbn; intuition discriminate |].
  destruct (fails h (RemoveSync (path_join h [dir; ".npmignore"]))) eqn:F4;
    [cbn; intuition discriminate |].
  destruct (fails h (RemoveSync (path_join h [dir; "LICENSE"]))) eqn:F5;
    [cbn; intuition discriminate |].
  destruct (require_json h (path_join h [dir; "package.json"])) as [e | m] eqn:R;
    [cbn; intuition discriminate |].
  cbn [bind emit ret throw fst snd app].
  destruct (cleaned_manifest m) as [e | doc] eqn:C;
    [cbn; intuition discriminate |].
  cbn [bind emit ret fst snd app trace In]. intros H.
  repeat match type of H with
    | _ \/ _ => destruct H as [H | H]
    | False => destruct H
    | RemoveSync _ = _ => discriminate H
    | RequireJson _ = _ => discriminate H
    end.
  inversion H; subst. split.
  - intros name Hn. cbn in Hn.
    repeat match type of Hn with
      | _ \/ _ => destruct Hn as [Hn | Hn]
      | False => destruct Hn
      end; subst; assumption.
  - exists m, doc. auto.
Qed.

Lemma manifest_is_written_last_witness :
  exists m doc,
    require_json (registry_host "18.0.0" never_fails)
      (path_join (registry_host "18.0.0" never_fails)
         ["/work/app"; "package.json"]) = inr m /\
    cleaned_manifest m = inr doc /\
    "/work/app/package.json" =
      path_join (registry_host "18.0.0" never_fails)
        ["/work/app"; "package.json"] /\
    JsonIndent2 example_cleaned = JsonIndent2 doc.
Proof.
  apply (manifest_is_written_last (registry_host "18.0.0" never_fails)
           "/work/app" "/work/app/package.json" (JsonIndent2 example_cleaned)).
  vm_compute. do 6 right. left. reflexivity.
Defined.

(** Whatever the manifest, when cleaning succeeds the manifest was an
    object and the value handed to [JSON.stringify] consists of a
    [scripts] object followed by those of [webDependencies],
    [dependencies] and [devDependencies] that the manifest has. *)
Lemma cleaned_manifest_shape (m doc : json) :
  cleaned_manifest m = inr doc ->
  exists members scripts,
    m = JObj members /\
    doc = JObj (("scripts", JObj scripts)
                :: present ["webDependencies"; "dependencies";
                            "devDependencies"] members).
Proof.
  unfold cleaned_manifest.
  destruct m as [| b | n | s | items | members]; cbn [js_get reorder_scripts];
    try discriminate.
  destruct (reorder_scripts (obj_get members "scripts")) as [e | ordered];
    [discriminate |].
  intros H. inversion H; subst.
  exists members, (stringify_members ordered). split; reflexivity.
Qed.

(** A [scripts] member that is [null] makes [cleanProject] throw like a
    missing one, whereas a boolean or a number is replaced by an empty
    [scripts] object. *)
Theorem scalar_scripts (members : list (string * json)) (s : json) :
  obj_get members "scripts" = Some s ->
  match s with
  | JNull => cleaned_manifest (JObj members) = inl TypeError
  | JBool _ | JNum _ =>
      cleaned_manifest (JObj members) =
        inr (JObj (("scripts", JObj [])
                   :: present ["webDependencies"; "dependencies";
                               "devDependencies"] members))
  | _ => True
  end.
Proof.
  intros Hs. unfold cleaned_manifest. cbn [js_get]. rewrite Hs.
  destruct s; try exact I; reflexivity.
Qed.

Lemma scalar_scripts_witness :
  cleaned_manifest (JObj [("scripts", JBool true); ("dependencies", JObj [])])
  = inr (JObj [("scripts", JObj []); ("dependencies", JObj [])]).
Proof.
  exact (scalar_scripts [("scripts", JBool true); ("dependencies", JObj [])]
           (JBool true) eq_refl).
Defined.

(** *** No script is lost *)

Lemma obj_define_fresh {A : Type} (o : props A) (k : string) (v : A) :
  ~ In k (map fst o) -> Permutation (obj_define o k v) ((k, v) :: o).
Proof.
  induction o as [| [k' v'] o IH]; simpl; intros Hin.
  - apply Permutation_refl.
  - destruct (String.eqb_spec k k') as [-> | Hne].
    + exfalso. apply Hin. now left.
    + destruct (comes_before k k'); [apply Permutation_refl |].
      rewrite perm_swap. apply perm_skip. apply IH.
      intros H. apply Hin. now right.
Qed.

Lemma obj_assign_fresh {A : Type} (source target : props A) :
  NoDup (map fst source) ->
  (forall k, In k (map fst source) -> ~ In k (map fst target)) ->
  Permutation (obj_assign target source) (target ++ source).
Proof.
  unfold obj_assign. revert target.
  induction source as [| [k v] source IH]; simpl; intros target Hnd Hdisj.
  - rewrite app_nil_r. apply Permutation_refl.
  - inversion Hnd as [| ? ? Hnotin Hnd']; subst.
    pose proof (obj_define_fresh target k v (Hdisj k (or_introl eq_refl)))
      as Hp.
    rewrite IH; auto.
    + rewrite Hp. cbn. apply Permutation_middle.
    + intros k' Hin Hin'.
      apply (Permutation_in _ (Permutation_map fst Hp)) in Hin'.
      cbn in Hin'. destruct Hin' as [-> | Hin']; [contradiction |].
      apply (Hdisj k'); auto.
Qed.

Lemma stringify_members_perm (o1 o2 : props (option json)) :
  Permutation o1 o2 ->
  Permutation (stringify_members o1) (stringify_members o2).
Proof.
  induction 1 as [| [k [v |]] l l' Hp IH | [k1 [v1 |]] [k2 [v2 |]] l | ];
    cbn; auto using Permutation_refl, perm_skip, perm_swap.
  eapply Permutation_trans; eauto.
Qed.

Lemma filter_keeps_all {A : Type} (n : string) (l : props A) :
  ~ In n (map fst l) ->
  filter (fun kv => negb (String.eqb (fst kv) n)) l = l.
Proof.
  induction l as [| [k v] l IH]; simpl; intros Hin; [reflexivity |].
  destruct (String.eqb_spec k n) as [-> | Hne].
  - exfalso. apply Hin. now left.
  - cbn. f_equal. apply IH. intros H. apply Hin. now right.
Qed.

Lemma take_key {A : Type} (n : string) (l : props A) :
  NoDup (map fst l) ->
  Permutation
    (match obj_get l n with Some v => [(n, v)] | None => [] end
     ++ filter (fun kv => negb (String.eqb (fst kv) n)) l)
    l.
Proof.
  induction l as [| [k v] l IH]; simpl; intros Hnd.
  - apply Permutation_refl.
  - inversion Hnd as [| ? ? Hnotin Hnd']; subst.
    destruct (String.eqb_spec n k) as [-> | Hne].
    + rewrite String.eqb_refl. cbn.
      rewrite filter_keeps_all by exact Hnotin. apply Permutation_refl.
    + assert (String.eqb k n = false) as ->
        by (apply String.eqb_neq; congruence).
      cbn. rewrite <- Permutation_middle. apply perm_skip. now apply IH.
Qed.

Lemma obj_without_cons {A : Type} (n : string) (ns : list string) (l : props A) :
  obj_without (n :: ns) l =
  filter (fun kv => negb (String.eqb (fst kv) n)) (obj_without ns l).
Proof.
  unfold obj_without, mem_string. cbn [existsb].
  induction l as [| [k v] l IH]; cbn [filter fst]; [reflexivity |].
  destruct (String.eqb k n) eqn:E1, (existsb (String.eqb k) ns) eqn:E2;
    cbn [negb orb filter fst]; rewrite ?E1; cbn [negb];
    rewrite ?IH; reflexivity.
Qed.

Lemma obj_get_without {A : Type} (ns : list string) (l : props A) (n : string) :
  ~ In n ns -> obj_get (obj_without ns l) n = obj_get l n.
Proof.
  intros Hn. unfold obj_without.
  induction l as [| [k v] l IH]; cbn [filter fst obj_get]; [reflexivity |].
  destruct (String.eqb_spec n k) as [-> | Hne].
  - assert (mem_string k ns = false) as ->.
    { unfold mem_string. apply not_true_is_false. intros H.
      apply existsb_exists in H. destruct H as [x [Hx Hk]].
      apply String.eqb_eq in Hk. subst. contradiction. }
    cbn. now rewrite String.eqb_refl.
  - destruct (negb (mem_string k ns)); [| exact IH].
    cbn. apply String.eqb_neq in Hne. now rewrite Hne.
Qed.

Lemma obj_without_nil {A : Type} (l : props A) : obj_without [] l = l.
Proof.
  unfold obj_without. induction l as [| kv l IH]; cbn; [reflexivity |].
  f_equal. exact IH.
Qed.

Lemma present_without {A : Type} (names : list string) (l : props A) :
  NoDup names ->
  NoDup (map fst l) ->
  Permutation (present names l ++ obj_without names l) l.
Proof.
  intros Hnames Hl. induction names as [| n ns IH].
  - cbn [present app]. rewrite obj_without_nil. apply Permutation_refl.
  - inversion Hnames as [| ? ? Hn Hns]; subst.
    specialize (IH Hns).
    pose proof (take_key n (obj_without ns l) (obj_without_NoDup ns l Hl))
      as Hk.
    rewrite (obj_get_without ns l n Hn) in Hk.
    rewrite obj_without_cons. cbn [present].
    eapply Permutation_trans; [| exact IH].
    eapply Permutation_trans;
      [| apply Permutation_app_head; exact Hk].
    destruct (obj_get l n) as [v |]; cbn [app].
    + apply Permutation_middle.
    + apply Permutation_refl.
Qed.

Lemma NoDup_well_known : NoDup well_known_scripts.
Proof.
  unfold well_known_scripts.
  repeat constructor; cbn; intuition discriminate.
Qed.

(** The scripts handed to [JSON.stringify] are a rearrangement of the
    original ones, whatever their names. *)
Lemma cleaning_keeps_every_script (m : json) (scripts : props json) :
  js_get m "scripts" = Some (JObj scripts) ->
  NoDup (map fst scripts) ->
  exists written others,
    cleaned_manifest m = inr (JObj (("scripts", JObj written) :: others)) /\
    Permutation written scripts.
Proof.
  intros Hget Hnd.
  destruct m as [| | | | | members]; try discriminate.
  cbn [js_get] in Hget.
  set (rest := obj_without well_known_scripts scripts).
  set (other := obj_assign [] rest).
  set (literal :=
         obj_assign [("prepare", obj_get scripts "prepare");
                     ("start", obj_get scripts "start");
                     ("build", obj_get scripts "build");
                     ("test", obj_get scripts "test")]
                    (map (fun kv => (fst kv, Some (snd kv))) other)).
  assert (reorder_scripts (Some (JObj scripts)) = inr literal) as Hr
    by reflexivity.
  assert (NoDup (map fst rest)) as Hrest by now apply obj_without_NoDup.
  assert (Permutation other rest) as Hother.
  { unfold other. rewrite obj_assign_fresh; auto. }
  assert (NoDup (map fst other)) as Hnd_other.
  { eapply Permutation_NoDup; [| exact Hrest].
    apply Permutation_map. now apply Permutation_sym. }
  assert (Permutation (stringify_members literal) scripts) as Hperm.
  { unfold literal. rewrite stringify_members_perm
      by (apply obj_assign_fresh;
          [ now rewrite map_fst_defined
          | intros k Hin; rewrite map_fst_defined in Hin;
            apply (Permutation_in _ (Permutation_map fst Hother)) in Hin;
            apply obj_without_keys in Hin; exact (proj2 Hin) ]).
    rewrite stringify_members_app, stringify_members_defined.
    rewrite Hother.
    exact (present_without well_known_scripts scripts NoDup_well_known Hnd). }
  exists (stringify_members literal),
    (present ["webDependencies"; "dependencies"; "devDependencies"] members).
  split; [| exact Hperm].
  unfold cleaned_manifest. cbn [js_get]. rewrite Hget, Hr. reflexivity.
Qed.

(** *** The rewritten file *)

Lemma written_exact : forall v, exact_json v = true -> written v = v.
Proof.
  fix IH 1.
  intros [| b | n | s | items | members]; cbn [written exact_json];
    intros H; try reflexivity.
  - unfold written_number.
    destruct (PrimFloat.is_nan n || PrimFloat.is_infinity n);
      [discriminate H |].
    destruct (negative_zero n); [discriminate H | reflexivity].
  - f_equal. induction items as [| x items IHl]; [reflexivity |].
    cbn [forallb map] in *. apply andb_true_iff in H. destruct H as [Hx Hl].
    rewrite (IH x Hx). f_equal. exact (IHl Hl).
  - f_equal. induction members as [| [k x] members IHl]; [reflexivity |].
    cbn [forallb map fst snd] in *. apply andb_true_iff in H.
    destruct H as [Hx Hl]. rewrite (IH x Hx). f_equal. exact (IHl Hl).
Qed.

Lemma written_entries_exact (l : props json) :
  Forall (fun kv => exact_json (snd kv) = true) l ->
  map written_entry l = l.
Proof.
  induction 1 as [| [k x] l Hx Hl IH]; [reflexivity |].
  cbn [map]. unfold written_entry at 1. cbn [fst snd] in *.
  now rewrite (written_exact x Hx), IH.
Qed.

(** Whatever the manifest, when cleaning succeeds the manifest was an
    object and the rewritten file holds a [scripts] object followed by
    those of [webDependencies], [dependencies] and [devDependencies] that
    the manifest has, in this order, each with its value as
    [JSON.stringify] writes it: a non-finite number has become [null] and
    negative zero [0], and a value without such numbers is unchanged.  No
    other field survives. *)
Theorem written_manifest_shape (m file : json) :
  written_manifest m = inr file ->
  exists members scripts,
    m = JObj members /\
    file = JObj (("scripts", JObj scripts)
                 :: map written_entry
                      (present ["webDependencies"; "dependencies";
                                "devDependencies"] members)) /\
    (Forall (fun kv => exact_json (snd kv) = true)
            (present ["webDependencies"; "dependencies"; "devDependencies"]
                     members) ->
     file = JObj (("scripts", JObj scripts)
                  :: present ["webDependencies"; "dependencies";
                              "devDependencies"] members)).
Proof.
  unfold written_manifest.
  destruct (cleaned_manifest m) as [err | doc] eqn:Hc; [discriminate |].
  intros H. inversion H; subst file.
  destruct (cleaned_manifest_shape m doc Hc) as [members [scripts [-> ->]]].
  exists members, (map written_entry scripts).
  split; [reflexivity |]. split; [reflexivity |].
  intros Hex. cbn [written map fst snd].
  change (map (fun kv : string * json => (fst kv, written (snd kv))))
    with (map written_entry).
  now rewrite (written_entries_exact _ Hex).
Qed.

Lemma written_manifest_shape_witness :
  exists members scripts,
    overflowing_manifest = JObj members /\
    JObj [("scripts", JObj [("start", JNull); ("build", JStr "x")]);
          ("dependencies", JNull)]
    = JObj (("scripts", JObj scripts)
            :: map written_entry
                 (present ["webDependencies"; "dependencies";
                           "devDependencies"] members)) /\
    (Forall (fun kv => exact_json (snd kv) = true)
            (present ["webDependencies"; "dependencies"; "devDependencies"]
                     members) ->
     JObj [("scripts", JObj [("start", JNull); ("build", JStr "x")]);
           ("dependencies", JNull)]
     = JObj (("scripts", JObj scripts)
             :: present ["webDependencies"; "dependencies";
                         "devDependencies"] members)).
Proof.
  exact (written_manifest_shape overflowing_manifest
           (JObj [("scripts", JObj [("start", JNull); ("build", JStr "x")]);
                  ("dependencies", JNull)])
           eq_refl).
Defined.

(** Cleaning neither loses, duplicates nor renames a script: for every
    manifest whose [scripts] member is an object, the scripts of the
    rewritten file are a rearrangement of the original entries, each with
    its value as [JSON.stringify] writes it; when no script value holds a
    non-finite number or negative zero, as when all are strings, they are
    a rearrangement of the original entries themselves. *)
Theorem written_scripts_are_the_scripts (m : json) (scripts : props json) :
  js_get m "scripts" = Some (JObj scripts) ->
  NoDup (map fst scripts) ->
  exists written_scripts others,
    written_manifest m
      = inr (JObj (("scripts", JObj written_scripts) :: others)) /\
    Permutation written_scripts (map written_entry scripts) /\
    (Forall (fun kv => exact_json (snd kv) = true) scripts ->
     Permutation written_scripts scripts).
Proof.
  intros Hget Hnd.
  destruct (cleaning_keeps_every_script m scripts Hget Hnd)
    as [handed [others [Hc Hp]]].
  exists (map written_entry handed), (map written_entry others).
  split; [| split].
  - unfold written_manifest. rewrite Hc. reflexivity.
  - now apply Permutation_map.
  - intros Hex. rewrite <- (written_entries_exact scripts Hex).
    now apply Permutation_map.
Qed.

Lemma written_scripts_are_the_scripts_witness :
  exists written_scripts others,
    written_manifest overflowing_manifest
      = inr (JObj (("scripts", JObj written_scripts) :: others)) /\
    Permutation written_scripts
      (map written_entry [("start", JNum PrimFloat.infinity);
                          ("build", JStr "x")]) /\
    (Forall (fun kv => exact_json (snd kv) = true)
            [("start", JNum PrimFloat.infinity); ("build", JStr "x")] ->
     Permutation written_scripts
       [("start", JNum PrimFloat.infinity); ("build", JStr "x")]).
Proof.
  apply (written_scripts_are_the_scripts overflowing_manifest
           [("start", JNum PrimFloat.infinity); ("build", JStr "x")] eq_refl).
  repeat constructor; cbn; intuition discriminate.
Defined.

(** ** The successful run, and a failed copy *)

Lemma cleanProject_normal (h : Host) (dir : string) :
  result (cleanProject h dir) = Normal tt ->
  exists m doc,
    require_json h (path_join h [dir; "package.json"]) = inr m /\
    cleaned_manifest m = inr doc /\
    trace (cleanProject h dir) =
      [RemoveSync (path_join h [dir; "package-lock.json"]);
       RemoveSync (path_join h [dir; "node_modules"]);
       RemoveSync (path_join h [dir; ".gitignore"]);
       RemoveSync (path_join h [dir; ".npmignore"]);
       RemoveSync (path_join h [dir; "LICENSE"]);
       RequireJson (path_join h [dir; "package.json"]);
       WriteFile (path_join h [dir; "package.json"]) (JsonIndent2 doc)].
Proof.
  unfold cleanProject, perform, require.
  destruct (fails h (RemoveSync (path_join h [dir; "package-lock.json"])));
    [discriminate |].
  destruct (fails h (RemoveSync (path_join h [dir; "node_modules"])));
    [discriminate |].
  destruct (fails h (RemoveSync (path_join h [dir; ".gitignore"])));
    [discriminate |].
  destruct (fails h (RemoveSync (path_join h [dir; ".npmignore"])));
    [discriminate |].
  destruct (fails h (RemoveSync (path_join h [dir; "LICENSE"])));
    [discriminate |].
  destruct (require_json h (path_join h [dir; "package.json"])) as [e | m]
    eqn:R; [discriminate |].
  cbn [bind emit ret throw fst snd app].
  destruct (cleaned_manifest m) as [e | doc] eqn:C; [discriminate |].
  destruct (fails h (WriteFile _ _)); [discriminate |].
  intros _. exists m, doc. repeat split; auto.
Qed.

(** A run that completes has made exactly these calls, in this order:
    the validation calls, the banner, the verifier's calls, the target
    directory, the placeholder manifest, the fetch (registry templates
    only), the copy, the five removals, the read of the copied manifest,
    the write of its cleaned form, and the dependency install between its
    messages. *)
Theorem completed_run (h : Host) (a : Argv.t) (v : Validated.t) :
  let template := Validated.template v in
  let target := Validated.targetDirectory v in
  let installed := installedTemplate h template target in
  let manifest := path_join h [target; "package.json"] in
  result (validateArgs h a) = Normal v ->
  snd (main h a) = Completed ->
  exists m doc,
    require_json h manifest = inr m /\
    cleaned_manifest m = inr doc /\
    fst (main h a) =
      (trace (validateArgs h a) ++ banner
       ++ trace (verifyProjectTemplate h (isLocalTemplate template) template
                   installed)
       ++ [ConsoleLog (nl ++ "Template: " ++ template);
           ConsoleLog ("Target directory: " ++ target);
           MkdirSync target;
           WriteFile manifest (Text placeholder_manifest)]
       ++ (if isLocalTemplate template then []
           else [template_install_call template target (Validated.verbose v)])
       ++ [CopyDir installed target;
           RemoveSync (path_join h [target; "package-lock.json"]);
           RemoveSync (path_join h [target; "node_modules"]);
           RemoveSync (path_join h [target; ".gitignore"]);
           RemoveSync (path_join h [target; ".npmignore"]);
           RemoveSync (path_join h [target; "LICENSE"]);
           RequireJson manifest;
           WriteFile manifest (JsonIndent2 doc);
           ConsoleLog nl;
           ConsoleLog "Setting up packages...  this might take a minute";
           spec_install_call v;
           ConsoleLog nl;
           ConsoleLog (setup_message target)])%list.
Proof.
  intros template target installed manifest Hv.
  rewrite (main_validated h a v Hv). cbn [fst snd].
  destruct (node_out_of_date h) eqn:Hnode.
  { rewrite (async_main_out_of_date h v Hnode). discriminate. }
  rewrite (async_main_steps h v Hnode). cbv zeta.
  fold template target installed.
  destruct (result (verifyProjectTemplate _ _ _ _)); try discriminate.
  destruct (result (initialize h v)) as [[] | c | e] eqn:Hinit;
    try discriminate.
  cbn [result snd trace fst].
  rewrite (install_packages_steps h v).
  destruct (fails h (spec_install_call v)); [discriminate |]. intros _.
  revert Hinit. rewrite (initialize_steps h v). cbv zeta.
  fold template target installed manifest.
  destruct (fails h (MkdirSync target)); [discriminate |].
  destruct (fails h (WriteFile manifest _)); [discriminate |].
  destruct (isLocalTemplate template).
  - destruct (fails h (CopyDir installed target)); [discriminate |].
    cbn [result snd trace fst]. intros Hc.
    destruct (cleanProject_normal h target Hc) as [m [doc [Hm [Hd Ht]]]].
    exists m, doc. split; [exact Hm |]. split; [exact Hd |].
    rewrite Ht. cbn [app]. rewrite <- ?app_assoc. reflexivity.
  - destruct (fails h (template_install_call _ _ _)); [discriminate |].
    destruct (fails h (CopyDir installed target)); [discriminate |].
    cbn [result snd trace fst]. intros Hc.
    destruct (cleanProject_normal h target Hc) as [m [doc [Hm [Hd Ht]]]].
    exists m, doc. split; [exact Hm |]. split; [exact Hd |].
    rewrite Ht. cbn [app]. rewrite <- ?app_assoc. reflexivity.
Qed.

Lemma completed_run_witness :
  exists m doc,
    require_json (local_host (JArr [JStr sentinel])) "/work/app/package.json"
      = inr m /\
    cleaned_manifest m = inr doc /\
    fst (main (local_host (JArr [JStr sentinel])) (sample_args "./tpl" "app"))
    = [ExistsSync "/work/app";
       ConsoleLog (nl ++ " " ++ intro);
       ConsoleLog "Verifying template...";
       RequireJson "/work/./tpl/package.json";
       ConsoleLog (nl ++ "Template: ./tpl");
       ConsoleLog "Target directory: /work/app";
       MkdirSync "/work/app";
       WriteFile "/work/app/package.json" (Text placeholder_manifest);
       CopyDir "/work/./tpl" "/work/app";
       RemoveSync "/work/app/package-lock.json";
       RemoveSync "/work/app/node_modules";
       RemoveSync "/work/app/.gitignore";
       RemoveSync "/work/app/.npmignore";
       RemoveSync "/work/app/LICENSE";
       RequireJson "/work/app/package.json";
       WriteFile "/work/app/package.json" (JsonIndent2 doc);
       ConsoleLog nl;
       ConsoleLog "Setting up packages...  this might take a minute";
       Execa "npm" ["install"; "--loglevel"; "error"]
             (npmInstallOptions "/work/app");
       ConsoleLog nl;
       ConsoleLog (setup_message "/work/app")].
Proof.
  exact (completed_run (local_host (JArr [JStr sentinel]))
           (sample_args "./tpl" "app") _ eq_refl eq_refl).
Defined.

Lemma initialize_failed_copy (h : Host) (v : Validated.t) (err : error) :
  fails h (CopyDir (installedTemplate h (Validated.template v)
                      (Validated.targetDirectory v))
                   (Validated.targetDirectory v)) = Some err ->
  (exists e, result (initialize h v) = Throw e) /\
  (forall e, In e (trace (initialize h v)) ->
             match e with
             | RemoveSync _ | WriteFile _ (JsonIndent2 _) => False
             | _ => True
             end).
Proof.
  intros Hf. rewrite (initialize_steps h v). cbv zeta. rewrite Hf.
  destruct (fails h (MkdirSync _)).
  { split; [eexists; reflexivity |]. intros x Hin; cbn in Hin;
    repeat (destruct Hin as [<- | Hin]; [exact I |]); destruct Hin. }
  destruct (fails h (WriteFile _ _)).
  { split; [eexists; reflexivity |]. intros x Hin; cbn in Hin;
    repeat (destruct Hin as [<- | Hin]; [exact I |]); destruct Hin. }
  destruct (isLocalTemplate (Validated.template v)).
  - split; [eexists; reflexivity |]. intros x Hin; cbn in Hin;
    repeat (destruct Hin as [<- | Hin]; [exact I |]); destruct Hin.
  - destruct (fails h (template_install_call _ _ _)).
    + split; [eexists; reflexivity |]. intros x Hin; cbn in Hin;
    repeat (destruct Hin as [<- | Hin]; [exact I |]); destruct Hin.
    + split; [eexists; reflexivity |]. intros x Hin; cbn in Hin;
    repeat (destruct Hin as [<- | Hin]; [exact I |]); destruct Hin.
Qed.

(** When the copy of the template fails, the run ends without completing
    and without any cleanup: nothing is removed (the directory and the
    placeholder manifest created before stay as they are), no cleaned
    manifest is written and the dependency install is not started. *)
Theorem failed_copy_is_not_cleaned_up
    (h : Host) (a : Argv.t) (v : Validated.t) (err : error) :
  result (validateArgs h a) = Normal v ->
  fails h (CopyDir (installedTemplate h (Validated.template v)
                      (Validated.targetDirectory v))
                   (Validated.targetDirectory v)) = Some err ->
  snd (main h a) <> Completed /\
  (forall p, ~ In (RemoveSync p) (fst (main h a))) /\
  (forall file doc, ~ In (WriteFile file (JsonIndent2 doc)) (fst (main h a))) /\
  ~ In (spec_install_call v) (fst (main h a)).
Proof.
  intros Hv Hf.
  destruct (initialize_failed_copy h v err Hf) as [[e He] Hi].
  assert (forall x, In x (fst (main h a)) ->
                    quiet [x] \/ In x (trace (initialize h v))) as Hsplit.
  { intros x Hin. rewrite (main_validated h a v Hv) in Hin. cbn [fst] in Hin.
    apply in_app_or in Hin. destruct Hin as [Hin | Hin].
    { left. pose proof (validateArgs_quiet h a) as Hq. unfold quiet in *.
      rewrite Forall_forall in Hq. repeat constructor. auto. }
    destruct (node_out_of_date h) eqn:Hnode.
    { rewrite (async_main_out_of_date h v Hnode) in Hin. left.
      cbn in Hin. destruct Hin as [<- | [<- | []]];
        (apply Forall_cons; [reflexivity | apply Forall_nil]). }
    rewrite (async_main_steps h v Hnode) in Hin. cbv zeta in Hin.
    pose proof (verifyProjectTemplate_quiet h
                  (isLocalTemplate (Validated.template v))
                  (Validated.template v)
                  (installedTemplate h (Validated.template v)
                     (Validated.targetDirectory v))) as Hq.
    unfold quiet in Hq. rewrite Forall_forall in Hq.
    assert (In x banner -> quiet [x]) as Hb.
    { cbn. intros [<- | [<- | []]];
        (apply Forall_cons; [reflexivity | apply Forall_nil]). }
    rewrite He in Hin.
    destruct (result (verifyProjectTemplate _ _ _ _));
      cbn [trace fst] in Hin;
      repeat (apply in_app_or in Hin; destruct Hin as [Hin | Hin]);
      auto; left; apply Forall_cons; auto using Forall_nil. }
  assert (forall x, In x (fst (main h a)) -> fs_mutating x = true ->
                    In x (trace (initialize h v))) as Hmut.
  { intros x Hin Hm. destruct (Hsplit x Hin) as [Hq | Hq]; [| exact Hq].
    inversion Hq; subst. congruence. }
  split; [| split; [| split]].
  - rewrite (main_validated h a v Hv). cbn [snd].
    destruct (node_out_of_date h) eqn:Hnode.
    { rewrite (async_main_out_of_date h v Hnode). discriminate. }
    rewrite (async_main_steps h v Hnode). cbv zeta. rewrite He.
    destruct (result (verifyProjectTemplate _ _ _ _)); discriminate.
  - intros p Hin. exact (Hi _ (Hmut _ Hin eq_refl)).
  - intros file doc Hin. exact (Hi _ (Hmut _ Hin eq_refl)).
  - intros Hin.
    assert (fs_mutating (spec_install_call v) = true) as Hm.
    { unfold spec_install_call, spec_command.
      destruct (chosen_manager v), (truthy (Validated.verbose v));
        reflexivity. }
    pose proof (Hmut _ Hin Hm) as Hin'. revert Hin'.
    rewrite (initialize_steps h v). cbv zeta. rewrite Hf.
    unfold spec_install_call, spec_command, template_install_call,
      npmInstallOptions.
    destruct (fails h (MkdirSync _)); [cbn; intuition discriminate |].
    destruct (fails h (WriteFile _ _)); [cbn; intuition discriminate |].
    destruct (isLocalTemplate (Validated.template v));
      [| destruct (fails h (Execa _ _ _))];
      destruct (chosen_manager v), (truthy (Validated.verbose v));
      cbn; intuition discriminate.
Qed.

Lemma failed_copy_is_not_cleaned_up_witness :
  snd (main (registry_host "18.0.0" copy_fails) (sample_args "@org/pkg" "app"))
  <> Completed.
Proof.
  exact (proj1 (failed_copy_is_not_cleaned_up
                  (registry_host "18.0.0" copy_fails)
                  (sample_args "@org/pkg" "app") _ (SystemError "ENOENT")
                  eq_refl eq_refl)).
Defined.
